(** * The firewall rule resource of the ddcloud Terraform provider

    A shallow embedding of [vendor/ddcloud/resource_firewall_rule.go]:
    the string helpers it relies on, the request payload it builds, the
    four lifecycle operations (create, read, update, delete) and the
    scope-resolution functions, followed by the properties the
    specification states about them.

    Go strings are byte sequences, so a Go [string] is a Rocq [string]
    (a list of 8-bit [ascii]); Go's [int] is a [Z] with the bounds of the
    64-bit platform written out where [strconv] checks them; a nil-able
    pointer ([*string], [*int], [*FirewallRule]) and a nil-able [error]
    are [option]s. *)

From Stdlib Require Import ZArith Lia List Bool Ascii String.
From stdpp Require Import base strings gmap.

Local Open Scope string_scope.
Local Open Scope Z_scope.

(** ** Errors

    The values that travel in Go's [error] interface in this file. *)

(** [strconv.ErrSyntax] and [strconv.ErrRange]. *)
Inductive NumErrKind : Set := ErrSyntax | ErrRange.

Inductive error : Set :=
| NumError (Func Num : string) (Err : NumErrKind)  (* *strconv.NumError *)
| Errorf (message : string)                        (* fmt.Errorf(...) *)
| RemoteError (message : string).                  (* whatever the API client returns *)

(** ** Package [strings] and [strconv] of the Go standard library *)

Module GoBytes.

Definition byte_val (c : ascii) : Z := Z.of_N (Ascii.N_of_ascii c).

Definition byte_of (z : Z) : ascii := Ascii.ascii_of_N (Z.to_N z).

Definition isUpperByte (c : ascii) : bool :=
  (byte_val "A"%char <=? byte_val c) && (byte_val c <=? byte_val "Z"%char).

Definition isLowerByte (c : ascii) : bool :=
  (byte_val "a"%char <=? byte_val c) && (byte_val c <=? byte_val "z"%char).

(** [c >= utf8.RuneSelf] is how Go tells that a byte starts a
    multi-byte rune. *)
Definition RuneSelf : Z := 128.

Fixpoint isASCII (s : string) : bool :=
  match s with
  | EmptyString => true
  | String c r => (byte_val c <? RuneSelf) && isASCII r
  end.

(** [c += 'a' - 'A'] and [c -= 'a' - 'A']. *)
Definition lowerByte (c : ascii) : ascii :=
  if isUpperByte c then byte_of (byte_val c + (byte_val "a"%char - byte_val "A"%char)) else c.

Definition upperByte (c : ascii) : ascii :=
  if isLowerByte c then byte_of (byte_val c - (byte_val "a"%char - byte_val "A"%char)) else c.

Fixpoint mapBytes (f : ascii -> ascii) (s : string) : string :=
  match s with
  | EmptyString => EmptyString
  | String c r => String (f c) (mapBytes f r)
  end.

End GoBytes.

(** What the file takes from outside and the source tree does not
    contain: the constants of the [compute] client library, and the
    Unicode tables behind [strings.ToLower] and [strings.ToUpper], which
    are consulted only for a string holding a byte [>= utf8.RuneSelf]. *)
Class Externals : Type := {
  FirewallRuleActionAccept : string;   (* compute.FirewallRuleActionAccept *)
  FirewallRuleActionDrop : string;     (* compute.FirewallRuleActionDrop *)
  ResourceTypeFirewallRule : string;   (* compute.ResourceTypeFirewallRule *)
  unicodeToLower : string -> string;   (* strings.Map(unicode.ToLower, s) *)
  unicodeToUpper : string -> string    (* strings.Map(unicode.ToUpper, s) *)
}.

Module strings.
Import GoBytes.

(** [strings.ToLower]: ASCII-only strings are mapped byte by byte,
    anything else goes through the Unicode tables. *)
Definition ToLower `{Externals} (s : string) : string :=
  if isASCII s then mapBytes lowerByte s else unicodeToLower s.

Definition ToUpper `{Externals} (s : string) : string :=
  if isASCII s then mapBytes upperByte s else unicodeToUpper s.

(** [strings.Split(s, sep)] for a one-byte separator: the substrings
    between the separators, [Count(s, sep) + 1] of them. *)
Fixpoint Split (s : string) (sep : ascii) : list string :=
  match s with
  | EmptyString => [EmptyString]
  | String c r =>
      if Ascii.eqb c sep then EmptyString :: Split r sep
      else match Split r sep with
           | h :: t => String c h :: t
           | [] => [String c EmptyString]
           end
  end.

End strings.

Module strconv.
Import GoBytes.

(** [strconv.IntSize] on the 64-bit platforms the provider is built for. *)
Definition IntSize : Z := 64.

Definition maxUint64 : Z := 2 ^ 64 - 1.

(** The digit loop of [ParseUint(s, 10, 0)], [n] being the value read
    so far.  A byte that is not a decimal digit is a syntax error; the
    two overflow tests are the source's, on 64-bit unsigned
    arithmetic: [n >= cutoff] before the multiplication, and the
    wrap-around test [n1 < n] after the addition. *)
Fixpoint parseUintLoop (s : string) (n : Z) : Z * option NumErrKind :=
  match s with
  | EmptyString => (n, None)
  | String c r =>
      let cv := byte_val c in
      if (byte_val "0"%char <=? cv) && (cv <=? byte_val "9"%char) then
        let d := cv - byte_val "0"%char in
        if n >=? maxUint64 / 10 + 1 then (maxUint64, Some ErrRange)
        else
          let n10 := n * 10 in
          let n1 := (n10 + d) mod 2 ^ 64 in
          if (n1 <? n10) || (n1 >? maxUint64) then (maxUint64, Some ErrRange)
          else parseUintLoop r n1
      else (0, Some ErrSyntax)
  end.

Definition ParseUint10 (s : string) : Z * option NumErrKind :=
  match s with
  | EmptyString => (0, Some ErrSyntax)
  | _ => parseUintLoop s 0
  end.

(** [ParseInt(s, 10, 0)], the error's [Func] left to the caller. *)
Definition ParseInt10 (s : string) : Z * option NumErrKind :=
  match s with
  | EmptyString => (0, Some ErrSyntax)
  | String c r =>
      let neg := Ascii.eqb c "-"%char in
      let digits := if Ascii.eqb c "+"%char || neg then r else s in
      match ParseUint10 digits with
      | (_, Some ErrSyntax) => (0, Some ErrSyntax)
      | (un, _) =>
          let cutoff := 2 ^ (IntSize - 1) in
          if negb neg && (un >=? cutoff) then (cutoff - 1, Some ErrRange)
          else if neg && (un >? cutoff) then (- cutoff, Some ErrRange)
          else (if neg then - un else un, None)
      end
  end.

(** [strconv.Atoi]: [ParseInt(s, 10, 0)] with the error renamed. *)
Definition Atoi (s : string) : Z * option error :=
  match ParseInt10 s with
  | (i, Some k) => (i, Some (NumError "Atoi" s k))
  | (i, None) => (i, None)
  end.

End strconv.

(** [time.Duration] counts nanoseconds. *)
Module time.
Definition Duration : Type := Z.
Definition Nanosecond : Duration := 1.
Definition Second : Duration := 1000000000 * Nanosecond.
Definition Minute : Duration := 60 * Second.
End time.

(** ** The plugin host: [schema.ResourceData]

    The host types every key through the resource's schema (all of them
    [TypeString] but ["enabled"], which is [TypeBool]), so the type
    assertions [.(string)] and [.(bool)] of the source cannot fail, and
    [Get] answers the zero value of the type for a key that holds
    nothing.  The host's diff is the set of keys [HasChange] reports. *)
Module schema.

Record ResourceData : Type := {
  rdId : string;
  rdStrings : gmap string string;
  rdBools : gmap string bool;
  rdChanged : gset string
}.

Definition Id (d : ResourceData) : string := rdId d.

(** [d.Get(key).(string)] *)
Definition GetString (d : ResourceData) (key : string) : string :=
  default "" (rdStrings d !! key).

(** [d.Get(key).(bool)] *)
Definition GetBool (d : ResourceData) (key : string) : bool :=
  default false (rdBools d !! key).

Definition HasChange (d : ResourceData) (key : string) : bool :=
  bool_decide (key ∈ rdChanged d).

Definition SetId (v : string) (d : ResourceData) : ResourceData :=
  {| rdId := v; rdStrings := rdStrings d; rdBools := rdBools d;
     rdChanged := rdChanged d |}.

(** [d.Set(key, value)] for a [bool] value. *)
Definition SetBool (key : string) (v : bool) (d : ResourceData) : ResourceData :=
  {| rdId := rdId d; rdStrings := rdStrings d;
     rdBools := <[key := v]> (rdBools d); rdChanged := rdChanged d |}.

End schema.

(** ** The API client library: package [compute]

    Only its interface is used here.  A scope records which of the
    library's [Match...] methods configured it, and with which
    arguments; the client is the table of its answers. *)
Module compute.

Record FirewallRulePlacement : Type := {
  Position : string;
  RelativeToRuleName : option string
}.

Inductive FirewallRuleScope : Type :=
| ScopeNotSet                                     (* the zero value *)
| AddressAndPort (address : string) (port : option Z)
| NetworkAndPort (baseAddress : string) (prefixSize : Z) (port : option Z)
| AnyAddress (port : option Z)
| AnyAddressAnyPort.

Record FirewallRuleConfiguration : Type := {
  Name : string;
  Action : string;
  Enabled : bool;
  Placement : FirewallRulePlacement;
  NetworkDomainID : string;
  IPVersion : string;
  Protocol : string;
  Source : FirewallRuleScope;
  Destination : FirewallRuleScope
}.

Definition withAction (a : string) (c : FirewallRuleConfiguration) :=
  {| Name := Name c; Action := a; Enabled := Enabled c;
     Placement := Placement c; NetworkDomainID := NetworkDomainID c;
     IPVersion := IPVersion c; Protocol := Protocol c;
     Source := Source c; Destination := Destination c |}.

Definition withSource (s : FirewallRuleScope) (c : FirewallRuleConfiguration) :=
  {| Name := Name c; Action := Action c; Enabled := Enabled c;
     Placement := Placement c; NetworkDomainID := NetworkDomainID c;
     IPVersion := IPVersion c; Protocol := Protocol c;
     Source := s; Destination := Destination c |}.

Definition withDestination (s : FirewallRuleScope) (c : FirewallRuleConfiguration) :=
  {| Name := Name c; Action := Action c; Enabled := Enabled c;
     Placement := Placement c; NetworkDomainID := NetworkDomainID c;
     IPVersion := IPVersion c; Protocol := Protocol c;
     Source := Source c; Destination := s |}.

Definition MatchSourceAddressAndPort (address : string) (port : option Z) :=
  withSource (AddressAndPort address port).
Definition MatchSourceNetworkAndPort (baseAddress : string) (prefixSize : Z)
    (port : option Z) :=
  withSource (NetworkAndPort baseAddress prefixSize port).
Definition MatchAnySourceAddress (port : option Z) :=
  withSource (AnyAddress port).
Definition MatchAnySource := withSource AnyAddressAnyPort.

Definition MatchDestinationAddressAndPort (address : string) (port : option Z) :=
  withDestination (AddressAndPort address port).
Definition MatchDestinationNetworkAndPort (baseAddress : string) (prefixSize : Z)
    (port : option Z) :=
  withDestination (NetworkAndPort baseAddress prefixSize port).
Definition MatchAnyDestinationAddress (port : option Z) :=
  withDestination (AnyAddress port).
Definition MatchAnyDestination := withDestination AnyAddressAnyPort.

(** What [GetFirewallRule] answers; the adapter reads [Enabled] only. *)
Record FirewallRule : Type := {
  RuleID : string;
  RuleName : string;
  RuleEnabled : bool
}.

(** The remote control plane, as the answers it gives. *)
Record Client : Type := {
  CreateFirewallRule : FirewallRuleConfiguration -> string * option error;
  GetFirewallRule : string -> option FirewallRule * option error;
  EditFirewallRule : string -> bool -> option error;
  DeleteFirewallRule : string -> option error;
  WaitForDeploy : string -> string -> time.Duration -> option error;
  WaitForDelete : string -> string -> time.Duration -> option error
}.

End compute.

(** ** Effects

    A lifecycle operation runs against a world: the host's resource data
    it was handed, and the log of what it did to its collaborators, in
    order: the domain lock, the remote API, the host's state.  Writes to
    the diagnostic log ([log.Printf]) are not modelled. *)
Inductive Event : Type :=
| Lock (domainID : string)
| Unlock (domainID : string)
| CallCreateFirewallRule (configuration : compute.FirewallRuleConfiguration)
| CallGetFirewallRule (id : string)
| CallEditFirewallRule (id : string) (enable : bool)
| CallDeleteFirewallRule (id : string)
| CallWaitForDeploy (resourceType id : string) (timeout : time.Duration)
| CallWaitForDelete (resourceType id : string) (timeout : time.Duration)
| DataSetId (id : string)
| DataSet (key : string) (value : bool).

Record World : Type := {
  data : schema.ResourceData;
  trace : list Event
}.

Definition Op (A : Type) : Type := World -> World * A.

Definition ret {A} (a : A) : Op A := fun w => (w, a).

Definition bind {A B} (m : Op A) (k : A -> Op B) : Op B :=
  fun w => let (w', a) := m w in k a w'.

Definition emit (e : Event) : Op unit :=
  fun w => ({| data := data w; trace := trace w ++ [e] |}, tt).

Definition getData : Op schema.ResourceData := fun w => (w, data w).

Definition modifyData (f : schema.ResourceData -> schema.ResourceData) : Op unit :=
  fun w => ({| data := f (data w); trace := trace w |}, tt).

(** [defer f()]: [f] runs when the rest of the function has returned,
    whatever it returned. *)
Definition defer {A} (deferred : Op unit) (rest : Op A) : Op A :=
  bind rest (fun a => bind deferred (fun _ => ret a)).

Declare Scope op_scope.
Delimit Scope op_scope with op.
Notation "'let*' x ':=' c 'in' k" := (bind c (fun x => k))
  (at level 10, x pattern, c at level 100, k at level 200) : op_scope.
Notation "c ';;;' k" := (bind c (fun _ => k))
  (at level 100, k at level 200, right associativity) : op_scope.

(** ** The resource: [resource_firewall_rule.go] *)

Definition resourceKeyFirewallRuleNetworkDomainID : string := "networkdomain".
Definition resourceKeyFirewallRuleName : string := "name".
Definition resourceKeyFirewallRuleAction : string := "action".
Definition resourceKeyFirewallRuleEnabled : string := "enabled".
Definition resourceKeyFirewallRulePlacement : string := "placement".
Definition resourceKeyFirewallRulePlacementRelativeToRuleName : string :=
  "placement_relative_to".
Definition resourceKeyFirewallRuleIPVersion : string := "ip_version".
Definition resourceKeyFirewallRuleProtocol : string := "protocol".
Definition resourceKeyFirewallRuleSourceAddress : string := "source_address".
Definition resourceKeyFirewallRuleSourceNetwork : string := "source_network".
Definition resourceKeyFirewallRuleSourcePort : string := "source_port".
Definition resourceKeyFirewallRuleDestinationAddress : string := "destination_address".
Definition resourceKeyFirewallRuleDestinationNetwork : string := "destination_network".
Definition resourceKeyFirewallRuleDestinationPort : string := "destination_port".
Definition resourceCreateTimeoutFirewallRule : time.Duration := 30 * time.Minute.
Definition resourceUpdateTimeoutFirewallRule : time.Duration := 10 * time.Minute.
Definition resourceDeleteTimeoutFirewallRule : time.Duration := 15 * time.Minute.

Definition matchAny : string := "any".

(** The provider handle: the API client, and the registry of domain
    locks, a lock being named by its network domain. *)
Record providerState : Type := {
  Client : compute.Client
}.

Definition GetDomainLock (p : providerState) (networkDomainID : string) : string :=
  networkDomainID.

Record resourcePropertyHelper : Type := {
  helperData : schema.ResourceData
}.

Definition propertyHelper (d : schema.ResourceData) : resourcePropertyHelper :=
  {| helperData := d |}.

(** Modelled from the spec: [resourcePropertyHelper.GetOptionalString],
    defined in another file of the package.  An optional field counts as
    given when it is not empty ("first non-empty wins", "empty -> no port
    constraint"), unless the caller allows the empty string. *)
Definition GetOptionalString (helper : resourcePropertyHelper) (key : string)
    (allowEmpty : bool) : option string :=
  let value := schema.GetString (helperData helper) key in
  if negb (String.eqb value "") || allowEmpty then Some value else None.

Section Resource.
Context `{Externals}.

Definition normalizeFirewallRuleAction (action : string) : string :=
  let lowered := strings.ToLower action in
  if String.eqb lowered "accept" then FirewallRuleActionAccept
  else if String.eqb lowered "accept_decisively" then FirewallRuleActionAccept
  else if String.eqb lowered "allow" then FirewallRuleActionAccept
  else if String.eqb lowered "drop" then FirewallRuleActionDrop
  else if String.eqb lowered "deny" then FirewallRuleActionDrop
  else action.

Definition parseFirewallPort (port : option string) : option Z * option error :=
  match port with
  | None => (None, None)
  | Some p =>
      if String.eqb p "any" then (None, None)
      else
        let (parsedPort, err) := strconv.Atoi p in
        match err with
        | Some _ => (None, err)
        | None => (Some parsedPort, None)
        end
  end.

(** The results are named in the source: a bare [return] hands back
    what they hold at that point. *)
Definition parseNetworkAndPrefix (networkAndPrefix : string) : string * Z * bool :=
  let networkComponents := strings.Split networkAndPrefix "/"%char in
  if negb (Nat.eqb (length networkComponents) 2) then ("", 0, false)
  else
    let baseAddress := nth 0 networkComponents "" in
    let (prefixSize, err) := strconv.Atoi (nth 1 networkComponents "") in
    match err with
    | Some _ => (baseAddress, prefixSize, false)
    | None => (baseAddress, prefixSize, true)
    end.

Definition configureSourceScope (propertyHelper : resourcePropertyHelper)
    (configuration : compute.FirewallRuleConfiguration)
  : compute.FirewallRuleConfiguration * option error :=
  let sourceAddress :=
    GetOptionalString propertyHelper resourceKeyFirewallRuleSourceAddress false in
  let sourceNetwork :=
    GetOptionalString propertyHelper resourceKeyFirewallRuleSourceNetwork false in
  let (sourcePort, err) :=
    parseFirewallPort
      (GetOptionalString propertyHelper resourceKeyFirewallRuleSourcePort false) in
  match err with
  | Some _ => (configuration, err)
  | None =>
      match sourceAddress, sourceNetwork, sourcePort with
      | Some sourceAddress, _, _ =>
          (compute.MatchSourceAddressAndPort sourceAddress sourcePort configuration,
           None)
      | None, Some sourceNetwork, _ =>
          let '(baseAddress, prefixSize, ok) := parseNetworkAndPrefix sourceNetwork in
          if negb ok then
            (configuration,
             Some (Errorf ("Source network '" +:+ sourceNetwork
                +:+ "' for firewall rule '"
                +:+ schema.GetString (helperData propertyHelper)
                      resourceKeyFirewallRuleName
                +:+ "' is invalid (must be 'BaseAddress/PrefixSize')")))
          else
            (compute.MatchSourceNetworkAndPort baseAddress prefixSize sourcePort
               configuration, None)
      | None, None, Some _ =>
          (compute.MatchAnySourceAddress sourcePort configuration, None)
      | None, None, None =>
          (compute.MatchAnySource configuration, None)
      end
  end.

Definition configureDestinationScope (propertyHelper : resourcePropertyHelper)
    (configuration : compute.FirewallRuleConfiguration)
  : compute.FirewallRuleConfiguration * option error :=
  let destinationNetwork :=
    GetOptionalString propertyHelper resourceKeyFirewallRuleDestinationNetwork false in
  let destinationAddress :=
    GetOptionalString propertyHelper resourceKeyFirewallRuleDestinationAddress false in
  let (destinationPort, err) :=
    parseFirewallPort
      (GetOptionalString propertyHelper resourceKeyFirewallRuleDestinationPort false) in
  match err with
  | Some _ => (configuration, err)
  | None =>
      match destinationAddress, destinationNetwork, destinationPort with
      | Some destinationAddress, _, _ =>
          (compute.MatchDestinationAddressAndPort destinationAddress destinationPort
             configuration, None)
      | None, Some destinationNetwork, _ =>
          let '(baseAddress, prefixSize, ok) :=
            parseNetworkAndPrefix destinationNetwork in
          if negb ok then
            (configuration,
             Some (Errorf ("Source network '" +:+ destinationNetwork
                +:+ "' for firewall rule '"
                +:+ schema.GetString (helperData propertyHelper)
                      resourceKeyFirewallRuleName
                +:+ "' is invalid (must be 'BaseAddress/PrefixSize')")))
          else
            (compute.MatchDestinationNetworkAndPort baseAddress prefixSize
               destinationPort configuration, None)
      | None, None, Some _ =>
          (compute.MatchAnyDestinationAddress destinationPort configuration, None)
      | None, None, None =>
          (compute.MatchAnyDestination configuration, None)
      end
  end.

(** Calls on the collaborators: each is logged, then answered. *)
Definition lockDomain (domainLock : string) : Op unit := emit (Lock domainLock).
Definition unlockDomain (domainLock : string) : Op unit := emit (Unlock domainLock).

Definition callCreateFirewallRule (apiClient : compute.Client)
    (configuration : compute.FirewallRuleConfiguration)
  : Op (string * option error) :=
  (emit (CallCreateFirewallRule configuration) ;;;
   ret (compute.CreateFirewallRule apiClient configuration))%op.

Definition callGetFirewallRule (apiClient : compute.Client) (id : string)
  : Op (option compute.FirewallRule * option error) :=
  (emit (CallGetFirewallRule id) ;;;
   ret (compute.GetFirewallRule apiClient id))%op.

Definition callEditFirewallRule (apiClient : compute.Client) (id : string)
    (enable : bool) : Op (option error) :=
  (emit (CallEditFirewallRule id enable) ;;;
   ret (compute.EditFirewallRule apiClient id enable))%op.

Definition callDeleteFirewallRule (apiClient : compute.Client) (id : string)
  : Op (option error) :=
  (emit (CallDeleteFirewallRule id) ;;;
   ret (compute.DeleteFirewallRule apiClient id))%op.

Definition callWaitForDeploy (apiClient : compute.Client)
    (resourceType id : string) (timeout : time.Duration) : Op (option error) :=
  (emit (CallWaitForDeploy resourceType id timeout) ;;;
   ret (compute.WaitForDeploy apiClient resourceType id timeout))%op.

Definition callWaitForDelete (apiClient : compute.Client)
    (resourceType id : string) (timeout : time.Duration) : Op (option error) :=
  (emit (CallWaitForDelete resourceType id timeout) ;;;
   ret (compute.WaitForDelete apiClient resourceType id timeout))%op.

Definition dataSetId (id : string) : Op unit :=
  (emit (DataSetId id) ;;; modifyData (schema.SetId id))%op.

Definition dataSet (key : string) (value : bool) : Op unit :=
  (emit (DataSet key value) ;;; modifyData (schema.SetBool key value))%op.

(** Create a firewall rule resource. *)
Definition resourceFirewallRuleCreate (provider : providerState)
  : Op (option error) :=
  (let* data := getData in
   let propertyHelper := propertyHelper data in
   let configuration :=
     {| compute.Name := schema.GetString data resourceKeyFirewallRuleName;
        compute.Action :=
          normalizeFirewallRuleAction
            (schema.GetString data resourceKeyFirewallRuleAction);
        compute.Placement :=
          {| compute.Position :=
               strings.ToUpper
                 (schema.GetString data resourceKeyFirewallRulePlacement);
             compute.RelativeToRuleName :=
               GetOptionalString propertyHelper
                 resourceKeyFirewallRulePlacementRelativeToRuleName false |};
        compute.Enabled := schema.GetBool data resourceKeyFirewallRuleEnabled;
        compute.NetworkDomainID :=
          schema.GetString data resourceKeyFirewallRuleNetworkDomainID;
        compute.IPVersion :=
          strings.ToUpper (schema.GetString data resourceKeyFirewallRuleIPVersion);
        compute.Protocol :=
          strings.ToUpper (schema.GetString data resourceKeyFirewallRuleProtocol);
        compute.Source := compute.ScopeNotSet;
        compute.Destination := compute.ScopeNotSet |} in
   let configuration :=
     compute.withAction (schema.GetString data resourceKeyFirewallRuleAction)
       configuration in
   let (configuration, err) := configureSourceScope propertyHelper configuration in
   match err with
   | Some _ => ret err
   | None =>
   let (configuration, err) :=
     configureDestinationScope propertyHelper configuration in
   match err with
   | Some _ => ret err
   | None =>
   let apiClient := Client provider in
   let domainLock :=
     GetDomainLock provider (compute.NetworkDomainID configuration) in
   lockDomain domainLock ;;;
   defer (unlockDomain domainLock)
     (let* (ruleID, err) := callCreateFirewallRule apiClient configuration in
      match err with
      | Some _ => ret err
      | None =>
      dataSetId ruleID ;;;
      let* err := callWaitForDeploy apiClient ResourceTypeFirewallRule ruleID
                    resourceCreateTimeoutFirewallRule in
      ret err
      end)
   end
   end)%op.

(** Read a firewall rule resource. *)
Definition resourceFirewallRuleRead (provider : providerState)
  : Op (option error) :=
  (let* data := getData in
   let id := schema.Id data in
   let apiClient := Client provider in
   let* (rule, err) := callGetFirewallRule apiClient id in
   match err with
   | Some _ => ret err
   | None =>
   match rule with
   | None => dataSetId "" ;;; ret None
   | Some rule =>
       dataSet resourceKeyFirewallRuleEnabled (compute.RuleEnabled rule) ;;;
       ret None
   end
   end)%op.

(** Update a firewall rule resource. *)
Definition resourceFirewallRuleUpdate (provider : providerState)
  : Op (option error) :=
  (let* data := getData in
   let id := schema.Id data in
   let networkDomainID :=
     schema.GetString data resourceKeyFirewallRuleNetworkDomainID in
   let apiClient := Client provider in
   let domainLock := GetDomainLock provider networkDomainID in
   lockDomain domainLock ;;;
   defer (unlockDomain domainLock)
     (if schema.HasChange data resourceKeyFirewallRuleEnabled then
        let enable := schema.GetBool data resourceKeyFirewallRuleEnabled in
        let* err := callEditFirewallRule apiClient id enable in
        match err with
        | Some _ => ret err
        | None => ret None
        end
      else ret None))%op.

(** Delete a firewall rule resource. *)
Definition resourceFirewallRuleDelete (provider : providerState)
  : Op (option error) :=
  (let* data := getData in
   let id := schema.Id data in
   let networkDomainID :=
     schema.GetString data resourceKeyFirewallRuleNetworkDomainID in
   let apiClient := Client provider in
   let domainLock := GetDomainLock provider networkDomainID in
   lockDomain domainLock ;;;
   defer (unlockDomain domainLock)
     (let* err := callDeleteFirewallRule apiClient id in
      match err with
      | Some _ => ret err
      | None =>
          callWaitForDelete apiClient ResourceTypeFirewallRule id
            resourceDeleteTimeoutFirewallRule
      end))%op.

End Resource.

(** ** The parts of the file the lifecycle operations do not use *)

(** The Unicode side of [strings.TrimSpace], consulted only for a string
    holding a byte [>= utf8.RuneSelf]. *)
Class UnicodeSpace : Type := {
  unicodeTrimSpace : string -> string   (* strings.TrimFunc(s, unicode.IsSpace) *)
}.

Module GoTrim.
Import GoBytes.

(** The table [asciiSpace] of package [strings]: tab, line feed,
    vertical tab, form feed, carriage return and space. *)
Definition asciiSpace (c : ascii) : bool :=
  let v := byte_val c in
  (v =? 9) || (v =? 10) || (v =? 11) || (v =? 12) || (v =? 13) || (v =? 32).

Fixpoint trimLeft (s : string) : string :=
  match s with
  | EmptyString => EmptyString
  | String c r => if asciiSpace c then trimLeft r else s
  end.

Fixpoint trimRight (s : string) : string :=
  match s with
  | EmptyString => EmptyString
  | String c r =>
      match trimRight r with
      | EmptyString => if asciiSpace c then EmptyString else String c EmptyString
      | r' => String c r'
      end
  end.

(** [strings.TrimSpace]: the string without its leading and trailing
    white space. *)
Definition TrimSpace `{UnicodeSpace} (s : string) : string :=
  if isASCII s then trimRight (trimLeft s) else unicodeTrimSpace s.

End GoTrim.

Section PortRange.
Context `{UnicodeSpace}.

(** The argument is dereferenced at once: a nil pointer panics, which is
    the result [None] here.  [strings.Split] always yields a first
    component. *)
Definition parsePortRange (portRange : option string)
  : option (string * option string) :=
  match portRange with
  | None => None
  | Some portRange =>
      let ports := strings.Split portRange "-"%char in
      let beginPort := GoTrim.TrimSpace (nth 0 ports "") in
      if Nat.eqb (length ports) 1 then Some (beginPort, None)
      else Some (beginPort, Some (GoTrim.TrimSpace (nth 1 ports "")))
  end.

End PortRange.

(** The declaration of a field in the host's schema, with the
    attributes this file sets. *)
Module schemaDecl.

Inductive ValueType : Set := TypeString | TypeBool.

Inductive DefaultValue : Set :=
| DefaultString (s : string)
| DefaultBool (b : bool).

Record Schema : Type := {
  Type_ : ValueType;
  ForceNew : bool;
  Required : bool;
  Optional : bool;
  Default : option DefaultValue;
  Description : string;
  StateFunc : option (string -> string);
  ConflictsWith : list string
}.

Record Resource : Type := {
  Create : providerState -> Op (option error);
  Read : providerState -> Op (option error);
  Update : providerState -> Op (option error);
  Delete : providerState -> Op (option error);
  SchemaEntries : list (string * Schema)
}.

(** The schema is a Go map from field name to declaration. *)
Definition SchemaMap (r : Resource) : gmap string Schema :=
  list_to_map (SchemaEntries r).

End schemaDecl.

Section ResourceDeclaration.
Context `{Externals}.
Import schemaDecl.

Definition resourceFirewallRule : Resource :=
  {| Create := resourceFirewallRuleCreate;
     Read := resourceFirewallRuleRead;
     Update := resourceFirewallRuleUpdate;
     Delete := resourceFirewallRuleDelete;
     SchemaEntries :=
       [ (resourceKeyFirewallRuleNetworkDomainID,
          {| Type_ := TypeString; ForceNew := true; Required := true;
             Optional := false; Default := None;
             Description :=
               "The Id of the network domain to which the firewall rule applies";
             StateFunc := None; ConflictsWith := [] |});
         (resourceKeyFirewallRuleName,
          {| Type_ := TypeString; ForceNew := true; Required := true;
             Optional := false; Default := None;
             Description := "A name for the firewall rule";
             StateFunc := None; ConflictsWith := [] |});
         (resourceKeyFirewallRuleAction,
          {| Type_ := TypeString; ForceNew := true; Required := true;
             Optional := false; Default := None;
             Description := "The action performed by the firewall rule";
             StateFunc := Some (fun action => normalizeFirewallRuleAction action);
             ConflictsWith := [] |});
         (resourceKeyFirewallRuleEnabled,
          {| Type_ := TypeBool; ForceNew := false; Required := false;
             Optional := true; Default := Some (DefaultBool true);
             Description := "Is the firewall rule enabled";
             StateFunc := None; ConflictsWith := [] |});
         (resourceKeyFirewallRulePlacement,
          {| Type_ := TypeString; ForceNew := true; Required := false;
             Optional := true; Default := Some (DefaultString "first");
             Description :=
               "Where in the firewall ACL this particular rule will be created";
             StateFunc := None; ConflictsWith := [] |});
         (resourceKeyFirewallRulePlacementRelativeToRuleName,
          {| Type_ := TypeString; ForceNew := true; Required := false;
             Optional := true; Default := None;
             Description :=
               "When placement is 'before' or 'after', specifies the name of the firewall rule to which the placement instruction refers";
             StateFunc := None; ConflictsWith := [] |});
         (resourceKeyFirewallRuleIPVersion,
          {| Type_ := TypeString; ForceNew := true; Required := true;
             Optional := false; Default := None;
             Description := "The IP version to which the firewall rule applies";
             StateFunc := None; ConflictsWith := [] |});
         (resourceKeyFirewallRuleProtocol,
          {| Type_ := TypeString; ForceNew := true; Required := true;
             Optional := false; Default := None;
             Description := "The protocol to which the rule applies";
             StateFunc := None; ConflictsWith := [] |});
         (resourceKeyFirewallRuleSourceAddress,
          {| Type_ := TypeString; ForceNew := true; Required := false;
             Optional := true; Default := None;
             Description := "The source IP address to be matched by the rule";
             StateFunc := None;
             ConflictsWith := [resourceKeyFirewallRuleSourceNetwork] |});
         (resourceKeyFirewallRuleSourceNetwork,
          {| Type_ := TypeString; ForceNew := true; Required := false;
             Optional := true; Default := None;
             Description := "The source IP network to be matched by the rule";
             StateFunc := None;
             ConflictsWith := [resourceKeyFirewallRuleSourceAddress] |});
         (resourceKeyFirewallRuleSourcePort,
          {| Type_ := TypeString; ForceNew := true; Required := false;
             Optional := true; Default := None;
             Description := "The source port to be matched by the rule";
             StateFunc := None; ConflictsWith := [] |});
         (resourceKeyFirewallRuleDestinationAddress,
          {| Type_ := TypeString; ForceNew := true; Required := false;
             Optional := true; Default := None;
             Description := "The destination IP address to be matched by the rule";
             StateFunc := None;
             ConflictsWith := [resourceKeyFirewallRuleDestinationNetwork] |});
         (resourceKeyFirewallRuleDestinationNetwork,
          {| Type_ := TypeString; ForceNew := true; Required := false;
             Optional := true; Default := None;
             Description := "The destination IP network to be matched by the rule";
             StateFunc := None;
             ConflictsWith := [resourceKeyFirewallRuleDestinationAddress] |});
         (resourceKeyFirewallRuleDestinationPort,
          {| Type_ := TypeString; ForceNew := true; Required := false;
             Optional := true; Default := None;
             Description := "The destination port to be matched by the rule";
             StateFunc := None; ConflictsWith := [] |}) ] |}.

End ResourceDeclaration.

(** * The vocabulary of the specification *)

(** ** Decimal numerals, as the specification speaks of them *)
Module Decimal.
Import GoBytes.

Definition isDigit (c : ascii) : bool :=
  (48 <=? byte_val c) && (byte_val c <=? 57).

Fixpoint allDigits (s : string) : bool :=
  match s with
  | EmptyString => true
  | String c r => isDigit c && allDigits r
  end.

(** The number a digit string denotes after the digits already read
    denoted [acc]. *)
Fixpoint digitsValue (s : string) (acc : Z) : Z :=
  match s with
  | EmptyString => acc
  | String c r => digitsValue r (10 * acc + (byte_val c - 48))
  end.

Definition isSign (c : ascii) : bool := Ascii.eqb c "+" || Ascii.eqb c "-".

Definition nonEmpty (s : string) : bool :=
  match s with EmptyString => false | String _ _ => true end.

(** A base-10 integer: an optional sign, then at least one digit. *)
Definition isBase10Integer (s : string) : bool :=
  match s with
  | EmptyString => false
  | String c r =>
      if isSign c then nonEmpty r && allDigits r else allDigits s
  end.

Definition integerValue (s : string) : Z :=
  match s with
  | EmptyString => 0
  | String c r =>
      if Ascii.eqb c "-" then - digitsValue r 0
      else if Ascii.eqb c "+" then digitsValue r 0
      else digitsValue s 0
  end.

(** The range of Go's [int] on a 64-bit platform. *)
Definition inIntRange (z : Z) : Prop := - 2 ^ 63 <= z <= 2 ^ 63 - 1.

End Decimal.

(** ** Letter case, as the specification speaks of it *)
Module LetterCase.
Import GoBytes.

(** Two bytes are the same letter when they are equal or one is an
    upper-case ASCII letter and the other its lower-case form. *)
Definition sameLetter (a b : ascii) : bool :=
  Ascii.eqb a b
  || ((65 <=? byte_val a) && (byte_val a <=? 90) && (byte_val b =? byte_val a + 32))
  || ((65 <=? byte_val b) && (byte_val b <=? 90) && (byte_val a =? byte_val b + 32)).

(** [caseVariant w s]: [s] is [w] up to the case of its letters. *)
Fixpoint caseVariant (w s : string) : bool :=
  match w, s with
  | EmptyString, EmptyString => true
  | String a w', String b s' => sameLetter a b && caseVariant w' s'
  | _, _ => false
  end.

(** The synonym table of the specification. *)
Definition acceptSynonyms : list string := ["accept"; "accept_decisively"; "allow"].
Definition dropSynonyms : list string := ["drop"; "deny"].

Definition variantOfAny (table : list string) (s : string) : bool :=
  existsb (fun w => caseVariant w s) table.

(** A word written in ASCII without upper-case letters. *)
Fixpoint lowerWord (w : string) : bool :=
  match w with
  | EmptyString => true
  | String a w' => (byte_val a <? 128) && negb (isUpperByte a) && lowerWord w'
  end.

(** The words [normalizeFirewallRuleAction] compares the lowered
    action with. *)
Definition recognizedAction (lowered : string) : bool :=
  existsb (String.eqb lowered) (acceptSynonyms ++ dropSynonyms).

End LetterCase.

(** How many times a byte occurs in a string. *)
Fixpoint countByte (sep : ascii) (s : string) : nat :=
  match s with
  | EmptyString => 0%nat
  | String c r => ((if Ascii.eqb c sep then 1 else 0) + countByte sep r)%nat
  end.

(** ** Scope resolution, as the specification speaks of it *)




(** The scope each mode stands for, given the fields. *)
Definition scopeByPriority (address network : option string) (port : option Z)
  : compute.FirewallRuleScope :=
  match address, network, port with
  | Some a, _, _ => compute.AddressAndPort a port
  | None, Some n, _ =>
      let '(baseAddress, prefixSize, _) := parseNetworkAndPrefix n in
      compute.NetworkAndPort baseAddress prefixSize port
  | None, None, Some _ => compute.AnyAddress port
  | None, None, None => compute.AnyAddressAnyPort
  end.

(** The two scopes of a rule, to speak of both resolutions at once. *)
Inductive Side : Set := SourceSide | DestinationSide.

Definition addressKey (side : Side) : string :=
  match side with
  | SourceSide => resourceKeyFirewallRuleSourceAddress
  | DestinationSide => resourceKeyFirewallRuleDestinationAddress
  end.

Definition networkKey (side : Side) : string :=
  match side with
  | SourceSide => resourceKeyFirewallRuleSourceNetwork
  | DestinationSide => resourceKeyFirewallRuleDestinationNetwork
  end.

Definition portKey (side : Side) : string :=
  match side with
  | SourceSide => resourceKeyFirewallRuleSourcePort
  | DestinationSide => resourceKeyFirewallRuleDestinationPort
  end.

Definition configureScope (side : Side) :=
  match side with
  | SourceSide => configureSourceScope
  | DestinationSide => configureDestinationScope
  end.

Definition scopeOf (side : Side) (c : compute.FirewallRuleConfiguration)
  : compute.FirewallRuleScope :=
  match side with
  | SourceSide => compute.Source c
  | DestinationSide => compute.Destination c
  end.

Definition withScope (side : Side) :=
  match side with
  | SourceSide => compute.withSource
  | DestinationSide => compute.withDestination
  end.

(** The network is consulted only when no address is given; it is then
    usable when it is absent or well-formed. *)
Definition networkUsable (address network : option string) : bool :=
  match address, network with
  | None, Some n => snd (parseNetworkAndPrefix n)
  | _, _ => true
  end.

(** The message of the error for a malformed network. *)
Definition invalidNetworkMessage (field network rule : string) : string :=
  field +:+ " network '" +:+ network +:+ "' for firewall rule '" +:+ rule
  +:+ "' is invalid (must be 'BaseAddress/PrefixSize')".

(** Resource data for examples: an identifier, the string fields, the
    enabled flag and the keys the host reports as changed. *)
Definition resourceData (id : string) (fields : list (string * string))
    (enabled : bool) (changed : list string) : schema.ResourceData :=
  {| schema.rdId := id;
     schema.rdStrings := list_to_map fields;
     schema.rdBools := {[ resourceKeyFirewallRuleEnabled := enabled ]};
     schema.rdChanged := list_to_set changed |}.

Definition emptyConfiguration : compute.FirewallRuleConfiguration :=
  {| compute.Name := ""; compute.Action := ""; compute.Enabled := false;
     compute.Placement :=
       {| compute.Position := ""; compute.RelativeToRuleName := None |};
     compute.NetworkDomainID := ""; compute.IPVersion := "";
     compute.Protocol := "";
     compute.Source := compute.ScopeNotSet;
     compute.Destination := compute.ScopeNotSet |}.

(** ** Worlds, traces and examples *)

(** A world at the start of an operation: nothing done yet. *)
Definition startWorld (d : schema.ResourceData) : World :=
  {| data := d; trace := [] |}.

(** The events that are calls on the remote API. *)
Definition isRemoteCall (e : Event) : bool :=
  match e with
  | CallCreateFirewallRule _ | CallGetFirewallRule _ | CallEditFirewallRule _ _
  | CallDeleteFirewallRule _ | CallWaitForDeploy _ _ _ | CallWaitForDelete _ _ _ =>
      true
  | Lock _ | Unlock _ | DataSetId _ | DataSet _ _ => false
  end.

Definition remoteCalls (t : list Event) : list Event := filter isRemoteCall t.

(** A client for examples, which gives the same answers to every call. *)
Definition answeringClient (created : string * option error)
    (found : option compute.FirewallRule * option error)
    (edited waited : option error) : compute.Client :=
  {| compute.CreateFirewallRule := fun _ => created;
     compute.GetFirewallRule := fun _ => found;
     compute.EditFirewallRule := fun _ _ => edited;
     compute.DeleteFirewallRule := fun _ => None;
     compute.WaitForDeploy := fun _ _ _ => waited;
     compute.WaitForDelete := fun _ _ _ => None |}.

(** The constants of the client library spelled as the specification
    spells the two actions, for examples. *)
Definition exampleExternals : Externals :=
  {| FirewallRuleActionAccept := "ACCEPT";
     FirewallRuleActionDrop := "DROP";
     ResourceTypeFirewallRule := "FirewallRule";
     unicodeToLower := fun s => s;
     unicodeToUpper := fun s => s |}.

(** A rule declared with the given action and no scope field, and the
    end-to-end example of the specification. *)
Definition ruleWithAction (action : string) : schema.ResourceData :=
  resourceData ""
    [("networkdomain", "domain-1"); ("name", "web"); ("action", action);
     ("placement", "first"); ("ip_version", "ipv4"); ("protocol", "tcp")]
    true [].

Definition exampleRule : schema.ResourceData :=
  resourceData ""
    [("networkdomain", "domain-1"); ("name", "web"); ("action", "accept");
     ("placement", "first"); ("ip_version", "ipv4"); ("protocol", "tcp");
     ("source_address", "192.168.1.1"); ("source_port", "8080");
     ("destination_network", "10.0.0.0/24"); ("destination_port", "any")]
    true [].

Section CreateSteps.
Context `{Externals}.

(** The configuration create holds once the declared fields are copied
    in, before the scopes are resolved. *)
Definition declaredConfiguration (d : schema.ResourceData)
  : compute.FirewallRuleConfiguration :=
  {| compute.Name := schema.GetString d resourceKeyFirewallRuleName;
     compute.Action := schema.GetString d resourceKeyFirewallRuleAction;
     compute.Enabled := schema.GetBool d resourceKeyFirewallRuleEnabled;
     compute.Placement :=
       {| compute.Position :=
            strings.ToUpper (schema.GetString d resourceKeyFirewallRulePlacement);
          compute.RelativeToRuleName :=
            GetOptionalString (propertyHelper d)
              resourceKeyFirewallRulePlacementRelativeToRuleName false |};
     compute.NetworkDomainID :=
       schema.GetString d resourceKeyFirewallRuleNetworkDomainID;
     compute.IPVersion :=
       strings.ToUpper (schema.GetString d resourceKeyFirewallRuleIPVersion);
     compute.Protocol :=
       strings.ToUpper (schema.GetString d resourceKeyFirewallRuleProtocol);
     compute.Source := compute.ScopeNotSet;
     compute.Destination := compute.ScopeNotSet |}.

(** The two scope resolutions of create, source first. *)
Definition resolveScopes (d : schema.ResourceData)
  : compute.FirewallRuleConfiguration * option error :=
  let (c, err) := configureSourceScope (propertyHelper d) (declaredConfiguration d) in
  match err with
  | Some _ => (c, err)
  | None => configureDestinationScope (propertyHelper d) c
  end.

End CreateSteps.

(** ** Further vocabulary: joining, lock brackets, white space *)

(** [strings.Join] for a one-byte separator, the inverse of [Split]. *)
Fixpoint Join (parts : list string) (sep : ascii) : string :=
  match parts with
  | [] => EmptyString
  | [p] => p
  | p :: rest => p +:+ String sep (Join rest sep)
  end.

Definition isLockEvent (e : Event) : bool :=
  match e with
  | Lock _ | Unlock _ => true
  | _ => false
  end.

(** A trace that takes the lock of a domain first, releases it last and
    does not touch a lock in between. *)
Definition lockBracketed (domain : string) (t : list Event) : Prop :=
  exists middle,
    t = Lock domain :: middle ++ [Unlock domain]
    /\ forallb (fun e => negb (isLockEvent e)) middle = true.

Definition otherSide (side : Side) : Side :=
  match side with
  | SourceSide => DestinationSide
  | DestinationSide => SourceSide
  end.

(** The port a scope constrains, if any. *)
Definition scopePort (s : compute.FirewallRuleScope) : option Z :=
  match s with
  | compute.AddressAndPort _ port | compute.NetworkAndPort _ _ port
  | compute.AnyAddress port => port
  | compute.ScopeNotSet | compute.AnyAddressAnyPort => None
  end.

(** No lower-case ASCII letter occurs in the string. *)
Fixpoint noLowerByte (s : string) : bool :=
  match s with
  | EmptyString => true
  | String c r => negb (GoBytes.isLowerByte c) && noLowerByte r
  end.

(** The first and the last byte of a string, if it has any. *)
Definition firstByte (s : string) : option ascii :=
  match s with
  | EmptyString => None
  | String c _ => Some c
  end.

Fixpoint lastByte (s : string) : option ascii :=
  match s with
  | EmptyString => None
  | String c EmptyString => Some c
  | String _ r => lastByte r
  end.

(** Neither end of the string is ASCII white space. *)
Definition trimmed (s : string) : bool :=
  match firstByte s, lastByte s with
  | Some a, Some b => negb (GoTrim.asciiSpace a) && negb (GoTrim.asciiSpace b)
  | _, _ => true
  end.

(** No Unicode involved, for examples. *)
Definition exampleUnicodeSpace : UnicodeSpace :=
  {| unicodeTrimSpace := fun s => s |}.

(** Providers for examples: one whose remote calls all succeed, one
    whose remote calls all fail. *)
Definition exampleProvider : providerState :=
  {| Client :=
       answeringClient ("rule-1", None)
         (Some {| compute.RuleID := "rule-1"; compute.RuleName := "web";
                  compute.RuleEnabled := false |}, None)
         None None |}.

Definition failingProvider : providerState :=
  {| Client :=
       {| compute.CreateFirewallRule := fun _ => ("", Some (RemoteError "refused"));
          compute.GetFirewallRule := fun _ => (None, Some (RemoteError "refused"));
          compute.EditFirewallRule := fun _ _ => Some (RemoteError "refused");
          compute.DeleteFirewallRule := fun _ => Some (RemoteError "refused");
          compute.WaitForDeploy := fun _ _ _ => Some (RemoteError "refused");
          compute.WaitForDelete := fun _ _ _ => Some (RemoteError "refused") |} |}.

(** The example rule once created, as the host would hand it to a later
    operation. *)
Definition createdRule : schema.ResourceData := schema.SetId "rule-1" exampleRule.

(** Two declarations of the schema, as written there, for examples. *)
Definition enabledDeclaration : schemaDecl.Schema :=
  {| schemaDecl.Type_ := schemaDecl.TypeBool; schemaDecl.ForceNew := false;
     schemaDecl.Required := false; schemaDecl.Optional := true;
     schemaDecl.Default := Some (schemaDecl.DefaultBool true);
     schemaDecl.Description := "Is the firewall rule enabled";
     schemaDecl.StateFunc := None; schemaDecl.ConflictsWith := [] |}.

Definition sourceAddressDeclaration : schemaDecl.Schema :=
  {| schemaDecl.Type_ := schemaDecl.TypeString; schemaDecl.ForceNew := true;
     schemaDecl.Required := false; schemaDecl.Optional := true;
     schemaDecl.Default := None;
     schemaDecl.Description := "The source IP address to be matched by the rule";
     schemaDecl.StateFunc := None;
     schemaDecl.ConflictsWith := [resourceKeyFirewallRuleSourceNetwork] |}.

(** * Properties *)

Section StrconvFacts.
Import GoBytes Decimal strconv.

Lemma byte_val_range (c : ascii) : 0 <= byte_val c < 256.
Proof.
  unfold byte_val. pose proof (Ascii.N_ascii_bounded c). lia.
Qed.

Lemma digitsValue_ge (s : string) (acc : Z) :
  allDigits s = true -> 0 <= acc -> acc <= digitsValue s acc.
Proof.
  revert acc. induction s as [|c r IH]; simpl; intros acc Hd Hacc; [lia|].
  apply andb_true_iff in Hd as [Hc Hr]. unfold isDigit in Hc.
  apply andb_true_iff in Hc as [H1 H2].
  apply Z.leb_le in H1, H2.
  specialize (IH (10 * acc + (byte_val c - 48)) Hr). lia.
Qed.

Lemma parseUintLoop_sound (s : string) (n v : Z) :
  0 <= n <= maxUint64 ->
  parseUintLoop s n = (v, None) ->
  allDigits s = true /\ v = digitsValue s n /\ 0 <= v <= maxUint64.
Proof.
  revert n. induction s as [|c r IH]; simpl; intros n Hn Hrun.
  - inversion Hrun; subst. auto.
  - change (byte_val "0") with 48 in Hrun. change (byte_val "9") with 57 in Hrun.
    unfold isDigit.
    destruct ((48 <=? byte_val c) && (byte_val c <=? 57)) eqn:Hc; [|discriminate].
    destruct (n >=? maxUint64 / 10 + 1) eqn:Hcut; [discriminate|].
    destruct (((n * 10 + (byte_val c - 48)) mod 2 ^ 64 <? n * 10)
              || ((n * 10 + (byte_val c - 48)) mod 2 ^ 64 >? maxUint64)) eqn:Hov;
      [discriminate|].
    apply andb_true_iff in Hc as [H1 H2]. apply Z.leb_le in H1, H2.
    apply orb_false_iff in Hov as [Hlt Hgt].
    apply Z.ltb_ge in Hlt.
    assert (Hc10 : n < 1844674407370955162).
    { unfold maxUint64 in Hcut. change (2 ^ 64 - 1) with 18446744073709551615 in Hcut.
      change (18446744073709551615 / 10 + 1) with 1844674407370955162 in Hcut.
      rewrite Z.geb_leb in Hcut. apply Z.leb_gt in Hcut. lia. }
    assert (Hmod : (n * 10 + (byte_val c - 48)) mod 2 ^ 64
                   = n * 10 + (byte_val c - 48)).
    { destruct (Z_lt_ge_dec (n * 10 + (byte_val c - 48)) (2 ^ 64)) as [Hs|Hb].
      - apply Z.mod_small. lia.
      - exfalso.
        assert (Hw : (n * 10 + (byte_val c - 48)) mod 2 ^ 64
                     = n * 10 + (byte_val c - 48) - 2 ^ 64).
        { symmetry. apply Z.mod_unique with (q := 1); lia. }
        rewrite Hw in Hlt. lia. }
    rewrite Hmod in Hrun, Hgt.
    rewrite Z.gtb_ltb in Hgt. apply Z.ltb_ge in Hgt.
    destruct (IH (n * 10 + (byte_val c - 48)) ltac:(lia) Hrun)
      as (Hd & Hv & Hr).
    repeat split; try lia; auto.
    rewrite Hv. f_equal. lia.
Qed.

Lemma parseUintLoop_complete (s : string) (n : Z) :
  0 <= n ->
  allDigits s = true ->
  digitsValue s n <= maxUint64 ->
  parseUintLoop s n = (digitsValue s n, None).
Proof.
  revert n. induction s as [|c r IH]; simpl; intros n Hn Hd Hmax; [reflexivity|].
  change (byte_val "0") with 48. change (byte_val "9") with 57.
  apply andb_true_iff in Hd as [Hc Hr]. unfold isDigit in Hc. rewrite Hc.
  apply andb_true_iff in Hc as [H1 H2]. apply Z.leb_le in H1, H2.
  pose proof (digitsValue_ge r (10 * n + (byte_val c - 48)) Hr ltac:(lia)) as Hge.
  unfold maxUint64 in *. change (2 ^ 64 - 1) with 18446744073709551615 in *.
  change (18446744073709551615 / 10 + 1) with 1844674407370955162.
  destruct (n >=? 1844674407370955162) eqn:Hcut.
  { rewrite Z.geb_leb in Hcut. apply Z.leb_le in Hcut. lia. }
  rewrite (Z.mod_small (n * 10 + (byte_val c - 48)) (2 ^ 64)) by lia.
  destruct (((n * 10 + (byte_val c - 48)) <? n * 10)
            || ((n * 10 + (byte_val c - 48)) >? 18446744073709551615)) eqn:Hov.
  - apply orb_true_iff in Hov as [Hlt|Hgt].
    + apply Z.ltb_lt in Hlt. lia.
    + rewrite Z.gtb_ltb in Hgt. apply Z.ltb_lt in Hgt. lia.
  - replace (n * 10 + (byte_val c - 48)) with (10 * n + (byte_val c - 48)) by lia.
    apply IH; auto; lia.
Qed.

Lemma ParseUint10_sound (s : string) (v : Z) :
  ParseUint10 s = (v, None) ->
  nonEmpty s = true /\ allDigits s = true /\ v = digitsValue s 0
  /\ 0 <= v <= maxUint64.
Proof.
  destruct s as [|c r]; [discriminate|].
  unfold ParseUint10. intros Hrun.
  apply parseUintLoop_sound in Hrun; [|unfold maxUint64; lia].
  simpl nonEmpty. tauto.
Qed.

Lemma ParseUint10_complete (s : string) :
  nonEmpty s = true -> allDigits s = true -> digitsValue s 0 <= maxUint64 ->
  ParseUint10 s = (digitsValue s 0, None).
Proof.
  destruct s as [|c r]; [discriminate|]. intros _ Hd Hmax.
  unfold ParseUint10. apply parseUintLoop_complete; auto. lia.
Qed.

(** A run of the digit loop that ends in a syntax error met a byte that
    is no digit. *)
Lemma parseUintLoop_syntax (s : string) (n v : Z) :
  parseUintLoop s n = (v, Some ErrSyntax) -> allDigits s = false.
Proof.
  revert n. induction s as [|c r IH]; simpl; intros n Hrun; [discriminate|].
  change (byte_val "0") with 48 in Hrun. change (byte_val "9") with 57 in Hrun.
  unfold isDigit.
  destruct ((48 <=? byte_val c) && (byte_val c <=? 57)); [|reflexivity].
  destruct (n >=? maxUint64 / 10 + 1); [discriminate|].
  destruct (_ || _); [discriminate|].
  simpl. eauto.
Qed.

Lemma parseUintLoop_not_digits (s : string) (n : Z) :
  allDigits s = false -> exists v k, parseUintLoop s n = (v, Some k).
Proof.
  revert n. induction s as [|c r IH]; simpl; intros n Hd; [discriminate|].
  change (byte_val "0") with 48. change (byte_val "9") with 57.
  unfold isDigit in Hd.
  destruct ((48 <=? byte_val c) && (byte_val c <=? 57)); [|eauto].
  destruct (n >=? maxUint64 / 10 + 1); [eauto|].
  destruct (_ || _); [eauto|].
  simpl in Hd. eauto.
Qed.

Lemma ParseUint10_not_digits (s : string) :
  nonEmpty s && allDigits s = false -> exists v k, ParseUint10 s = (v, Some k).
Proof.
  destruct s as [|c r]; [simpl; eauto|].
  intros Hd. unfold ParseUint10. apply parseUintLoop_not_digits.
  exact Hd.
Qed.

(** On overflow the loop answers the largest 64-bit value. *)
Lemma parseUintLoop_range (s : string) (n v : Z) :
  parseUintLoop s n = (v, Some ErrRange) -> v = maxUint64.
Proof.
  revert n. induction s as [|c r IH]; simpl; intros n Hrun; [discriminate|].
  destruct (_ && _); [|discriminate].
  destruct (n >=? maxUint64 / 10 + 1); [congruence|].
  destruct (_ || _); [congruence|]. eauto.
Qed.

Lemma ParseUint10_range (s : string) (v : Z) :
  ParseUint10 s = (v, Some ErrRange) -> v = 18446744073709551615.
Proof.
  destruct s as [|c r]; [discriminate|]. unfold ParseUint10.
  intros Hrun. apply parseUintLoop_range in Hrun. exact Hrun.
Qed.

Lemma isDigit_not_sign (c : ascii) : isDigit c = true -> isSign c = false.
Proof.
  unfold isDigit, isSign. intros Hc.
  apply andb_true_iff in Hc as [H1 H2]. apply Z.leb_le in H1, H2.
  destruct (Ascii.eqb_spec c "+") as [->|_];
    [change (byte_val "+") with 43 in H1; lia|].
  destruct (Ascii.eqb_spec c "-") as [->|_];
    [change (byte_val "-") with 45 in H1; lia|].
  reflexivity.
Qed.

(** [ParseInt10] against the numeral it reads. *)
Lemma ParseInt10_sound (s : string) (v : Z) :
  ParseInt10 s = (v, None) ->
  isBase10Integer s = true /\ v = integerValue s /\ inIntRange v.
Proof.
  destruct s as [|c r]; [discriminate|].
  unfold ParseInt10, isBase10Integer, integerValue, isSign, inIntRange.
  change (2 ^ (IntSize - 1)) with 9223372036854775808.
  change (2 ^ 63) with 9223372036854775808.
  destruct (Ascii.eqb c "-") eqn:Hneg; [|destruct (Ascii.eqb c "+") eqn:Hpos];
    rewrite ?orb_true_r; cbn [orb]; cbv iota;
    match goal with
    | |- context [ParseUint10 ?d] =>
        destruct (ParseUint10 d) as [un [[|]|]] eqn:Hun; try discriminate
    end.
  all: cbn [negb andb]; rewrite ?orb_true_r.
  - (* a range error of ParseUint10 never ends well *)
    apply ParseUint10_range in Hun as ->. discriminate.
  - apply ParseUint10_sound in Hun as (Hne & Hd & Hv & Hr).
    destruct (un >? 9223372036854775808) eqn:Hc; [discriminate|].
    intros [= <-]. rewrite Z.gtb_ltb in Hc. apply Z.ltb_ge in Hc.
    rewrite Hne, Hd, <- Hv. repeat split; lia.
  - apply ParseUint10_range in Hun as ->. discriminate.
  - apply ParseUint10_sound in Hun as (Hne & Hd & Hv & Hr).
    destruct (un >=? 9223372036854775808) eqn:Hc; [discriminate|].
    intros [= <-]. rewrite Z.geb_leb in Hc. apply Z.leb_gt in Hc.
    rewrite Hne, Hd, <- Hv. repeat split; lia.
  - apply ParseUint10_range in Hun as ->. discriminate.
  - apply ParseUint10_sound in Hun as (Hne & Hd & Hv & Hr).
    destruct (un >=? 9223372036854775808) eqn:Hc; [discriminate|].
    intros [= <-]. rewrite Z.geb_leb in Hc. apply Z.leb_gt in Hc.
    rewrite Hd, <- Hv. repeat split; lia.
Qed.

Lemma ParseInt10_complete (s : string) :
  isBase10Integer s = true -> inIntRange (integerValue s) ->
  ParseInt10 s = (integerValue s, None).
Proof.
  destruct s as [|c r]; [discriminate|].
  unfold ParseInt10, isBase10Integer, integerValue, isSign, inIntRange.
  change (2 ^ (IntSize - 1)) with 9223372036854775808.
  change (2 ^ 63) with 9223372036854775808.
  destruct (Ascii.eqb c "-") eqn:Hneg; [|destruct (Ascii.eqb c "+") eqn:Hpos];
    rewrite ?orb_true_r; cbn [orb negb andb]; cbv iota; intros Hd Hrange.
  - apply andb_true_iff in Hd as [Hne Hd].
    rewrite ParseUint10_complete by (auto; unfold maxUint64; lia).
    destruct (digitsValue r 0 >? 9223372036854775808) eqn:Hc; [|reflexivity].
    rewrite Z.gtb_ltb in Hc. apply Z.ltb_lt in Hc. lia.
  - apply andb_true_iff in Hd as [Hne Hd].
    rewrite ParseUint10_complete by (auto; unfold maxUint64; lia).
    destruct (digitsValue r 0 >=? 9223372036854775808) eqn:Hc; [|reflexivity].
    rewrite Z.geb_leb in Hc. apply Z.leb_le in Hc. lia.
  - rewrite ParseUint10_complete by (auto; unfold maxUint64; lia).
    destruct (digitsValue (String c r) 0 >=? 9223372036854775808) eqn:Hc;
      [|reflexivity].
    rewrite Z.geb_leb in Hc. apply Z.leb_le in Hc. lia.
Qed.

Lemma ParseInt10_not_integer (s : string) :
  isBase10Integer s = false -> exists v k, ParseInt10 s = (v, Some k).
Proof.
  destruct s as [|c r]; [simpl; eauto|].
  unfold ParseInt10, isBase10Integer, isSign.
  change (2 ^ (IntSize - 1)) with 9223372036854775808.
  destruct (Ascii.eqb c "-") eqn:Hneg; [|destruct (Ascii.eqb c "+") eqn:Hpos];
    rewrite ?orb_true_r; cbn [orb negb andb]; cbv iota; intros Hd;
    (apply ParseUint10_not_digits in Hd as (un & k & Hun) || 
     (apply (ParseUint10_not_digits (String c r)) in Hd as (un & k & Hun)));
    rewrite Hun; destruct k; eauto;
    apply ParseUint10_range in Hun as ->; cbn; eauto.
Qed.

(** [Atoi] reads exactly the base-10 integers that fit an [int]. *)
Lemma Atoi_sound (s : string) (v : Z) :
  Atoi s = (v, None) ->
  isBase10Integer s = true /\ v = integerValue s /\ inIntRange v.
Proof.
  unfold Atoi. destruct (ParseInt10 s) as [i [k|]] eqn:Hrun; [discriminate|].
  intros [= <-]. apply ParseInt10_sound. exact Hrun.
Qed.

Lemma Atoi_complete (s : string) :
  isBase10Integer s = true -> inIntRange (integerValue s) ->
  Atoi s = (integerValue s, None).
Proof.
  intros Hs Hr. unfold Atoi. rewrite ParseInt10_complete; auto.
Qed.

Lemma Atoi_not_integer (s : string) :
  isBase10Integer s = false ->
  exists v k, Atoi s = (v, Some (NumError "Atoi" s k)).
Proof.
  intros Hs. apply ParseInt10_not_integer in Hs as (v & k & Hrun).
  unfold Atoi. rewrite Hrun. eauto.
Qed.

End StrconvFacts.

Section CaseFacts.
Import GoBytes LetterCase.

Lemma byte_of_val (c : ascii) : byte_of (byte_val c) = c.
Proof.
  unfold byte_of, byte_val. rewrite N2Z.id. apply Ascii.ascii_N_embedding.
Qed.

Lemma byte_val_of (z : Z) : 0 <= z < 256 -> byte_val (byte_of z) = z.
Proof.
  intros Hz. unfold byte_of, byte_val.
  rewrite Ascii.N_ascii_embedding by lia. lia.
Qed.

Lemma byte_val_inj (a b : ascii) : byte_val a = byte_val b -> a = b.
Proof.
  intros Hab. rewrite <- (byte_of_val a), <- (byte_of_val b). now f_equal.
Qed.

Lemma isUpperByte_spec (c : ascii) :
  isUpperByte c = true <-> 65 <= byte_val c <= 90.
Proof.
  unfold isUpperByte. change (byte_val "A") with 65. change (byte_val "Z") with 90.
  rewrite andb_true_iff, !Z.leb_le. tauto.
Qed.

Lemma lowerByte_upper (c : ascii) :
  65 <= byte_val c <= 90 -> byte_val (lowerByte c) = byte_val c + 32.
Proof.
  intros Hc. unfold lowerByte.
  rewrite (proj2 (isUpperByte_spec c) Hc).
  change (byte_val "a" - byte_val "A") with 32. apply byte_val_of. lia.
Qed.

Lemma lowerByte_not_upper (c : ascii) : isUpperByte c = false -> lowerByte c = c.
Proof. intros Hc. unfold lowerByte. now rewrite Hc. Qed.

(** The lower-case form of a byte is the same letter. *)
Lemma sameLetter_lowerByte (b : ascii) : sameLetter (lowerByte b) b = true.
Proof.
  unfold sameLetter. destruct (isUpperByte b) eqn:Hb.
  - apply isUpperByte_spec in Hb. rewrite (lowerByte_upper b Hb).
    apply orb_true_iff. right.
    rewrite !andb_true_iff, !Z.leb_le, Z.eqb_eq. lia.
  - rewrite (lowerByte_not_upper b Hb), Ascii.eqb_refl. reflexivity.
Qed.

(** A byte that is the same letter as a lower-case ASCII byte lowers
    to it, and is ASCII itself. *)
Lemma lowerByte_sameLetter (a b : ascii) :
  byte_val a < 128 -> isUpperByte a = false -> sameLetter a b = true ->
  byte_val b < 128 /\ lowerByte b = a.
Proof.
  intros Ha Hup Hsame. unfold sameLetter in Hsame.
  assert (Hna : ~ (65 <= byte_val a <= 90)).
  { intros Hr. apply isUpperByte_spec in Hr. congruence. }
  rewrite !orb_true_iff, !andb_true_iff, !Z.leb_le, !Z.eqb_eq in Hsame.
  destruct Hsame as [[Heq|Hbad]|Hlow].
  - apply Ascii.eqb_eq in Heq. subst b. split; [lia|].
    now apply lowerByte_not_upper.
  - lia.
  - destruct Hlow as [Hb Hab]. split; [lia|].
    apply byte_val_inj. rewrite lowerByte_upper by lia. lia.
Qed.

Lemma caseVariant_mapBytes (w s : string) :
  lowerWord w = true -> caseVariant w s = true ->
  isASCII s = true /\ mapBytes lowerByte s = w.
Proof.
  revert s. induction w as [|a w IH]; intros [|b s]; simpl; try discriminate; auto.
  intros Hw Hv.
  apply andb_true_iff in Hw as [Ha Hw]. apply andb_true_iff in Ha as [Ha Hup].
  apply andb_true_iff in Hv as [Hab Hv].
  apply Z.ltb_lt in Ha. apply negb_true_iff in Hup.
  destruct (lowerByte_sameLetter a b Ha Hup Hab) as [Hb Hl].
  destruct (IH s Hw Hv) as [Hs Hm].
  rewrite Hs, Hl, Hm. split; [|reflexivity].
  apply andb_true_iff. split; [|reflexivity].
  apply Z.ltb_lt. exact Hb.
Qed.

Lemma caseVariant_of_mapBytes (s : string) :
  caseVariant (mapBytes lowerByte s) s = true.
Proof.
  induction s as [|b s IH]; simpl; [reflexivity|].
  now rewrite sameLetter_lowerByte, IH.
Qed.

Context `{Externals}.

(** [strings.ToLower] sends every case variant of a lower-case word to
    that word. *)
Lemma ToLower_caseVariant (w s : string) :
  lowerWord w = true -> caseVariant w s = true -> strings.ToLower s = w.
Proof.
  intros Hw Hv. destruct (caseVariant_mapBytes w s Hw Hv) as [Hs Hm].
  unfold strings.ToLower. now rewrite Hs.
Qed.

(** Conversely, an ASCII string that lowers to a word is a case variant
    of it. *)
Lemma caseVariant_ToLower (w s : string) :
  isASCII s = true -> strings.ToLower s = w -> caseVariant w s = true.
Proof.
  intros Hs Hl. unfold strings.ToLower in Hl. rewrite Hs in Hl. subst w.
  apply caseVariant_of_mapBytes.
Qed.

End CaseFacts.

Section ActionNormalization.
Import GoBytes LetterCase.
Context `{Externals}.

Lemma normalize_lowered_accept (action w : string) :
  In w acceptSynonyms -> strings.ToLower action = w ->
  normalizeFirewallRuleAction action = FirewallRuleActionAccept.
Proof.
  intros Hw Hl. unfold normalizeFirewallRuleAction. rewrite Hl.
  simpl in Hw. destruct Hw as [<-|[<-|[<-|[]]]]; reflexivity.
Qed.

Lemma normalize_lowered_drop (action w : string) :
  In w dropSynonyms -> strings.ToLower action = w ->
  normalizeFirewallRuleAction action = FirewallRuleActionDrop.
Proof.
  intros Hw Hl. unfold normalizeFirewallRuleAction. rewrite Hl.
  simpl in Hw. destruct Hw as [<-|[<-|[]]]; reflexivity.
Qed.

Lemma normalize_unrecognized (action : string) :
  recognizedAction (strings.ToLower action) = false ->
  normalizeFirewallRuleAction action = action.
Proof.
  unfold recognizedAction, normalizeFirewallRuleAction. simpl.
  intros Hr. repeat (apply orb_false_iff in Hr as [-> Hr]). reflexivity.
Qed.

Lemma variantOfAny_lowered (table : list string) (action : string) :
  forallb lowerWord table = true -> variantOfAny table action = true ->
  exists w, In w table /\ strings.ToLower action = w.
Proof.
  unfold variantOfAny. intros Hlow Hv.
  apply existsb_exists in Hv as (w & Hin & Hw).
  exists w. split; [exact Hin|].
  apply ToLower_caseVariant; [|exact Hw].
  rewrite forallb_forall in Hlow. now apply Hlow.
Qed.

Lemma recognized_variant (action : string) :
  isASCII action = true ->
  recognizedAction (strings.ToLower action) = true ->
  variantOfAny (acceptSynonyms ++ dropSynonyms) action = true.
Proof.
  unfold recognizedAction, variantOfAny. intros Hs Hr.
  apply existsb_exists in Hr as (w & Hin & Hw).
  apply existsb_exists. exists w. split; [exact Hin|].
  apply String.eqb_eq in Hw. now apply caseVariant_ToLower.
Qed.

(** C6. [normalizeFirewallRuleAction] sends "ALLOW", "accept" and
    "Accept_Decisively", and every case variant of accept,
    accept_decisively and allow, to the accept action; "Deny" and
    "drop", and every case variant of drop and deny, to the drop
    action; and hands back unchanged any value whose lowered form is
    none of the five words, which for an ASCII value means any value
    that is no case variant of them. *)
Theorem normalizeFirewallRuleAction_synonyms :
  (normalizeFirewallRuleAction "ALLOW" = FirewallRuleActionAccept
   /\ normalizeFirewallRuleAction "accept" = FirewallRuleActionAccept
   /\ normalizeFirewallRuleAction "Accept_Decisively" = FirewallRuleActionAccept
   /\ normalizeFirewallRuleAction "Deny" = FirewallRuleActionDrop
   /\ normalizeFirewallRuleAction "drop" = FirewallRuleActionDrop)
  /\ (forall action, variantOfAny acceptSynonyms action = true ->
        normalizeFirewallRuleAction action = FirewallRuleActionAccept)
  /\ (forall action, variantOfAny dropSynonyms action = true ->
        normalizeFirewallRuleAction action = FirewallRuleActionDrop)
  /\ (forall action, recognizedAction (strings.ToLower action) = false ->
        normalizeFirewallRuleAction action = action)
  /\ (forall action, isASCII action = true ->
        variantOfAny (acceptSynonyms ++ dropSynonyms) action = false ->
        normalizeFirewallRuleAction action = action).
Proof.
  split; [repeat split; reflexivity|].
  split; [|split; [|split]].
  - intros action Hv.
    apply variantOfAny_lowered in Hv as (w & Hin & Hl); [|reflexivity].
    now apply normalize_lowered_accept with w.
  - intros action Hv.
    apply variantOfAny_lowered in Hv as (w & Hin & Hl); [|reflexivity].
    now apply normalize_lowered_drop with w.
  - exact normalize_unrecognized.
  - intros action Hs Hv. apply normalize_unrecognized.
    destruct (recognizedAction (strings.ToLower action)) eqn:Hr; [|reflexivity].
    apply (recognized_variant action Hs) in Hr. congruence.
Qed.

End ActionNormalization.

Section Parsing.
Import GoBytes Decimal.

(** Splitting yields one component more than there are separators. *)
Lemma Split_length (s : string) (sep : ascii) :
  length (strings.Split s sep) = S (countByte sep s).
Proof.
  induction s as [|c r IH]; simpl; [reflexivity|].
  destruct (Ascii.eqb c sep); simpl; [now rewrite IH|].
  destruct (strings.Split r sep) as [|h t]; simpl in *; [discriminate|].
  exact IH.
Qed.


Lemma parseNetworkAndPrefix_two (s base pre : string) :
  strings.Split s "/" = [base; pre] ->
  parseNetworkAndPrefix s =
    match strconv.Atoi pre with
    | (prefixSize, Some _) => (base, prefixSize, false)
    | (prefixSize, None) => (base, prefixSize, true)
    end.
Proof.
  intros Hs. unfold parseNetworkAndPrefix. rewrite Hs. simpl.
  destruct (strconv.Atoi pre) as [v [e|]]; reflexivity.
Qed.


(** A string with exactly one '/' whose second component is a base-10
    integer that fits an [int] is accepted, with that integer. *)
Lemma parseNetworkAndPrefix_ok (s base pre : string) :
  strings.Split s "/" = [base; pre] ->
  isBase10Integer pre = true -> inIntRange (integerValue pre) ->
  parseNetworkAndPrefix s = (base, integerValue pre, true).
Proof.
  intros Hs Hpre Hr. rewrite (parseNetworkAndPrefix_two s base pre Hs).
  now rewrite Atoi_complete.
Qed.

(** Acceptance, the other way round. *)
Lemma parseNetworkAndPrefix_true (s base : string) (prefixSize : Z) :
  parseNetworkAndPrefix s = (base, prefixSize, true) ->
  countByte "/" s = 1%nat
  /\ exists pre, strings.Split s "/" = [base; pre]
       /\ isBase10Integer pre = true /\ prefixSize = integerValue pre.
Proof.
  unfold parseNetworkAndPrefix. pose proof (Split_length s "/") as Hlen.
  destruct (Nat.eqb_spec (length (strings.Split s "/")) 2) as [Heq|_];
    [|discriminate].
  simpl. rewrite Heq in Hlen. injection Hlen as Hcount.
  destruct (strings.Split s "/") as [|b [|p [|x t]]]; try discriminate.
  simpl. destruct (strconv.Atoi p) as [v [e|]] eqn:Hp; [discriminate|].
  intros [= <- <-]. apply Atoi_sound in Hp as (Hi & Hv & _).
  split; [congruence|]. exists p. auto.
Qed.

(** C5, as amended. [parseFirewallPort] answers no port constraint and
    no error when the port is absent (nil) or the literal "any"; the
    parsed integer for a base-10 integer that fits an [int], such as
    "80"; and a parse error for any other string, such as "abc" and the
    empty string. *)
Theorem parseFirewallPort_spec :
  parseFirewallPort None = (None, None)
  /\ parseFirewallPort (Some "any") = (None, None)
  /\ parseFirewallPort (Some "80") = (Some 80, None)
  /\ (forall p, isBase10Integer p = true -> inIntRange (integerValue p) ->
        parseFirewallPort (Some p) = (Some (integerValue p), None))
  /\ parseFirewallPort (Some "abc") = (None, Some (NumError "Atoi" "abc" ErrSyntax))
  /\ parseFirewallPort (Some "") = (None, Some (NumError "Atoi" "" ErrSyntax))
  /\ (forall p, p <> "any" -> isBase10Integer p = false ->
        exists k, parseFirewallPort (Some p) = (None, Some (NumError "Atoi" p k))).
Proof.
  repeat (split; [reflexivity|]). split.
  - intros p Hp Hr. unfold parseFirewallPort.
    destruct (String.eqb_spec p "any") as [->|_]; [discriminate|].
    now rewrite Atoi_complete.
  - repeat (split; [reflexivity|]).
    intros p Hany Hp. unfold parseFirewallPort.
    destruct (String.eqb_spec p "any") as [->|_]; [contradiction|].
    destruct (Atoi_not_integer p Hp) as (v & k & ->). eauto.
Qed.

(** C5, as stated, fails on the empty port string: it is not read as an
    absent port but handed to [strconv.Atoi], which rejects it. *)
Lemma parseFirewallPort_empty_string_is_error :
  parseFirewallPort (Some "") <> (None, None).
Proof. discriminate. Qed.

(** Within scope resolution the empty string never reaches
    [parseFirewallPort]: a field left empty is read as absent, and so
    resolves to no port constraint. *)
Lemma empty_port_field_resolves_to_no_port (ph : resourcePropertyHelper)
    (key : string) :
  schema.GetString (helperData ph) key = "" ->
  parseFirewallPort (GetOptionalString ph key false) = (None, None).
Proof.
  intros Hempty. unfold GetOptionalString. rewrite Hempty. reflexivity.
Qed.


Lemma parseFirewallPort_spec_witness :
  parseFirewallPort (Some "443") = (Some 443, None)
  /\ exists k, parseFirewallPort (Some "http")
               = (None, Some (NumError "Atoi" "http" k)).
Proof.
  destruct parseFirewallPort_spec as (_ & _ & _ & Hint & _ & _ & Hother).
  split.
  - apply (Hint "443"); [reflexivity|]. vm_compute. split; discriminate.
  - apply (Hother "http"); [discriminate|reflexivity].
Defined.

End Parsing.

(** ** Scope resolution *)

Section ScopeResolution.

(** What either resolution does, case by case. *)
Lemma configureScope_cases (side : Side) (ph : resourcePropertyHelper)
    (cfg : compute.FirewallRuleConfiguration) :
  let address := GetOptionalString ph (addressKey side) false in
  let network := GetOptionalString ph (networkKey side) false in
  configureScope side ph cfg =
    match parseFirewallPort (GetOptionalString ph (portKey side) false) with
    | (_, Some e) => (cfg, Some e)
    | (port, None) =>
        if networkUsable address network
        then (withScope side (scopeByPriority address network port) cfg, None)
        else (cfg,
              Some (Errorf (invalidNetworkMessage "Source" (default "" network)
                      (schema.GetString (helperData ph) resourceKeyFirewallRuleName))))
    end.
Proof.
  destruct side; cbv zeta; unfold configureScope, configureSourceScope,
    configureDestinationScope, networkUsable, scopeByPriority, addressKey,
    networkKey, portKey, withScope.
  all: destruct (parseFirewallPort _) as [port [e|]]; [reflexivity|].
  all: destruct (GetOptionalString ph _ false) as [a|]; [reflexivity|].
  all: destruct (GetOptionalString ph _ false) as [n|];
    [|destruct port; reflexivity].
  all: destruct (parseNetworkAndPrefix n) as [[b k] [|]]; reflexivity.
Qed.



(** When the port does not parse, or the network consulted is
    malformed, the resolution answers an error and leaves the
    configuration alone. *)
Lemma scope_resolution_fails (side : Side) (ph : resourcePropertyHelper)
    (cfg : compute.FirewallRuleConfiguration) :
  snd (parseFirewallPort (GetOptionalString ph (portKey side) false)) <> None
  \/ networkUsable (GetOptionalString ph (addressKey side) false)
       (GetOptionalString ph (networkKey side) false) = false ->
  exists e, configureScope side ph cfg = (cfg, Some e).
Proof.
  intros Hbad. pose proof (configureScope_cases side ph cfg) as Hrun.
  cbv zeta in Hrun. rewrite Hrun.
  destruct (parseFirewallPort _) as [port [e|]]; [eauto|].
  destruct Hbad as [Hp|Hn]; [now elim Hp|]. rewrite Hn. eauto.
Qed.


(** A port field holding "any" is given, yet resolves to no port: alone,
    it selects match-any, not any-address-with-port. *)
Example scope_resolution_port_any :
  let ph := propertyHelper (resourceData "" [("source_port", "any")] true []) in
  configureSourceScope ph emptyConfiguration
  = (compute.MatchAnySource emptyConfiguration, None).
Proof. vm_compute. reflexivity. Qed.

(** For a malformed network both resolutions build the same message,
    which begins with "Source". *)
Lemma malformed_network_message (side : Side) (ph : resourcePropertyHelper)
    (cfg : compute.FirewallRuleConfiguration) (port : option Z) (n : string) :
  parseFirewallPort (GetOptionalString ph (portKey side) false) = (port, None) ->
  GetOptionalString ph (addressKey side) false = None ->
  GetOptionalString ph (networkKey side) false = Some n ->
  snd (parseNetworkAndPrefix n) = false ->
  configureScope side ph cfg =
    (cfg, Some (Errorf (invalidNetworkMessage "Source" n
                  (schema.GetString (helperData ph) resourceKeyFirewallRuleName)))).
Proof.
  intros Hport Ha Hn Hbad. pose proof (configureScope_cases side ph cfg) as Hrun.
  cbv zeta in Hrun. rewrite Hrun, Hport, Ha, Hn. simpl. now rewrite Hbad.
Qed.

(** C3 fails on the destination side. A destination network without a
    '/' is reported as a source network: the message names the value and
    the rule, but the wrong field. *)
Theorem destination_network_error_names_source :
  configureDestinationScope
    (propertyHelper
       (resourceData "" [("name", "web"); ("destination_network", "10.0.0.0")]
          true []))
    emptyConfiguration
  = (emptyConfiguration,
     Some (Errorf
       "Source network '10.0.0.0' for firewall rule 'web' is invalid (must be 'BaseAddress/PrefixSize')")).
Proof. vm_compute. reflexivity. Qed.

End ScopeResolution.

(** ** The lifecycle operations *)

Section Lifecycle.
Context `{Externals}.

(** Everything create does, by the outcome of each step. *)
Lemma create_run (provider : providerState) (d : schema.ResourceData)
    (t : list Event) :
  resourceFirewallRuleCreate provider {| data := d; trace := t |} =
    match resolveScopes d with
    | (_, Some e) => ({| data := d; trace := t |}, Some e)
    | (c, None) =>
        let domain := compute.NetworkDomainID c in
        match compute.CreateFirewallRule (Client provider) c with
        | (_, Some e) =>
            ({| data := d;
                trace := t ++ [Lock domain; CallCreateFirewallRule c; Unlock domain] |},
             Some e)
        | (ruleID, None) =>
            ({| data := schema.SetId ruleID d;
                trace := t ++ [Lock domain; CallCreateFirewallRule c;
                               DataSetId ruleID;
                               CallWaitForDeploy ResourceTypeFirewallRule ruleID
                                 resourceCreateTimeoutFirewallRule;
                               Unlock domain] |},
             compute.WaitForDeploy (Client provider) ResourceTypeFirewallRule ruleID
               resourceCreateTimeoutFirewallRule)
        end
    end.
Proof.
  unfold resourceFirewallRuleCreate, resolveScopes, bind, getData. cbn [data].
  change (compute.withAction _ _) with (declaredConfiguration d).
  destruct (configureSourceScope _ _) as [c1 [e1|]]; [reflexivity|].
  destruct (configureDestinationScope _ c1) as [c2 [e2|]]; [reflexivity|].
  unfold defer, lockDomain, unlockDomain, callCreateFirewallRule, GetDomainLock,
    bind, emit, ret. cbn [data trace].
  destruct (compute.CreateFirewallRule (Client provider) c2) as [ruleID [e|]].
  - cbn. rewrite <- !app_assoc. reflexivity.
  - unfold dataSetId, callWaitForDeploy, modifyData, bind, emit, ret. cbn.
    rewrite <- !app_assoc. reflexivity.
Qed.

Lemma read_run (provider : providerState) (d : schema.ResourceData)
    (t : list Event) :
  resourceFirewallRuleRead provider {| data := d; trace := t |} =
    let id := schema.Id d in
    match compute.GetFirewallRule (Client provider) id with
    | (_, Some e) => ({| data := d; trace := t ++ [CallGetFirewallRule id] |}, Some e)
    | (None, None) =>
        ({| data := schema.SetId "" d;
            trace := t ++ [CallGetFirewallRule id; DataSetId ""] |}, None)
    | (Some rule, None) =>
        ({| data := schema.SetBool resourceKeyFirewallRuleEnabled
                      (compute.RuleEnabled rule) d;
            trace := t ++ [CallGetFirewallRule id;
                           DataSet resourceKeyFirewallRuleEnabled
                             (compute.RuleEnabled rule)] |}, None)
    end.
Proof.
  unfold resourceFirewallRuleRead, callGetFirewallRule, dataSetId, dataSet,
    modifyData, bind, getData, emit, ret. cbn.
  destruct (compute.GetFirewallRule (Client provider) (schema.Id d))
    as [[rule|] [e|]]; cbn; rewrite <- ?app_assoc; reflexivity.
Qed.

Lemma update_run (provider : providerState) (d : schema.ResourceData)
    (t : list Event) :
  resourceFirewallRuleUpdate provider {| data := d; trace := t |} =
    let id := schema.Id d in
    let domain := schema.GetString d resourceKeyFirewallRuleNetworkDomainID in
    let enable := schema.GetBool d resourceKeyFirewallRuleEnabled in
    if schema.HasChange d resourceKeyFirewallRuleEnabled then
      ({| data := d;
          trace := t ++ [Lock domain; CallEditFirewallRule id enable; Unlock domain] |},
       compute.EditFirewallRule (Client provider) id enable)
    else
      ({| data := d; trace := t ++ [Lock domain; Unlock domain] |}, None).
Proof.
  unfold resourceFirewallRuleUpdate, callEditFirewallRule, defer, lockDomain,
    unlockDomain, GetDomainLock, bind, getData, emit, ret. cbn.
  destruct (schema.HasChange d resourceKeyFirewallRuleEnabled); cbn.
  - destruct (compute.EditFirewallRule _ _ _); cbn; rewrite <- !app_assoc;
      reflexivity.
  - rewrite <- !app_assoc. reflexivity.
Qed.

(** Resolving a scope changes nothing but that scope. *)
Lemma configureScope_action (side : Side) (ph : resourcePropertyHelper)
    (cfg : compute.FirewallRuleConfiguration) :
  compute.Action (fst (configureScope side ph cfg)) = compute.Action cfg.
Proof.
  pose proof (configureScope_cases side ph cfg) as Hrun. cbv zeta in Hrun.
  rewrite Hrun. destruct (parseFirewallPort _) as [port [e|]]; [reflexivity|].
  destruct (networkUsable _ _); [|reflexivity].
  destruct side; reflexivity.
Qed.

Lemma resolveScopes_action (d : schema.ResourceData) :
  compute.Action (fst (resolveScopes d))
  = schema.GetString d resourceKeyFirewallRuleAction.
Proof.
  unfold resolveScopes.
  pose proof (configureScope_action SourceSide (propertyHelper d)
                (declaredConfiguration d)) as Hs.
  simpl in Hs.
  destruct (configureSourceScope _ _) as [c1 [e1|]]; [exact Hs|].
  pose proof (configureScope_action DestinationSide (propertyHelper d) c1) as Hd.
  simpl in Hd, Hs. rewrite Hd. exact Hs.
Qed.

(** Whenever create reaches the remote API, the configuration it sends
    carries the action as it was declared. *)
Lemma create_passes_declared_action (provider : providerState)
    (d : schema.ResourceData) (c : compute.FirewallRuleConfiguration) :
  In (CallCreateFirewallRule c)
     (trace (fst (resourceFirewallRuleCreate provider (startWorld d)))) ->
  compute.Action c = schema.GetString d resourceKeyFirewallRuleAction.
Proof.
  unfold startWorld. rewrite create_run.
  pose proof (resolveScopes_action d) as Hact.
  destruct (resolveScopes d) as [c' [e|]]; [intros []|].
  cbv zeta. simpl in Hact.
  destruct (compute.CreateFirewallRule _ _) as [ruleID [e|]]; simpl;
    intros Hin; repeat (destruct Hin as [Hin|Hin]; try discriminate);
    try contradiction; injection Hin as <-; exact Hact.
Qed.

(** C1 fails. Declared as "allow" or as "ALLOW", the action reaches
    [CreateFirewallRule] as it was written, while normalizing either
    spelling gives the accept action: whatever that constant is, one of
    the two configurations does not carry the normalized action. *)
Theorem create_action_not_normalized (provider : providerState) :
  exists action c,
    In action ["allow"; "ALLOW"]
    /\ In (CallCreateFirewallRule c)
         (trace (fst (resourceFirewallRuleCreate provider
                        (startWorld (ruleWithAction action)))))
    /\ compute.Action c = action
    /\ normalizeFirewallRuleAction action = FirewallRuleActionAccept
    /\ compute.Action c <> normalizeFirewallRuleAction action.
Proof.
  assert (Hsent : forall action, In action ["allow"; "ALLOW"] ->
            exists c, In (CallCreateFirewallRule c)
              (trace (fst (resourceFirewallRuleCreate provider
                             (startWorld (ruleWithAction action)))))
              /\ compute.Action c = action).
  { intros action Hin. unfold startWorld. rewrite create_run.
    assert (Hres : snd (resolveScopes (ruleWithAction action)) = None
                   /\ compute.Action (fst (resolveScopes (ruleWithAction action)))
                      = action).
    { destruct Hin as [<-|[<-|[]]]; vm_compute; split; reflexivity. }
    destruct (resolveScopes (ruleWithAction action)) as [c [e|]];
      simpl in Hres; destruct Hres as [Hnone Hact]; [discriminate|].
    exists c. split; [|exact Hact]. cbv zeta.
    destruct (compute.CreateFirewallRule _ _) as [ruleID [e|]]; simpl; auto. }
  destruct (string_dec FirewallRuleActionAccept "allow") as [Heq|Hne].
  - destruct (Hsent "ALLOW") as (c & Hin & Hact); [simpl; auto|].
    exists "ALLOW", c. repeat split; auto; [simpl; auto|].
    rewrite Hact. change (normalizeFirewallRuleAction "ALLOW")
      with FirewallRuleActionAccept. rewrite Heq. discriminate.
  - destruct (Hsent "allow") as (c & Hin & Hact); [simpl; auto|].
    exists "allow", c. repeat split; auto; [simpl; auto|].
    rewrite Hact. change (normalizeFirewallRuleAction "allow")
      with FirewallRuleActionAccept. congruence.
Qed.

(** C7. When [GetFirewallRule] answers neither a rule nor an error, read
    clears the stored ID and returns no error; when it answers a rule,
    read copies the rule's [Enabled] flag into the local state and
    leaves everything else there as it was. *)
Theorem read_clears_id_or_copies_enabled (provider : providerState)
    (d : schema.ResourceData) :
  (compute.GetFirewallRule (Client provider) (schema.Id d) = (None, None) ->
   exists w,
     resourceFirewallRuleRead provider (startWorld d) = (w, None)
     /\ schema.Id (data w) = ""
     /\ schema.rdStrings (data w) = schema.rdStrings d
     /\ schema.rdBools (data w) = schema.rdBools d
     /\ schema.rdChanged (data w) = schema.rdChanged d)
  /\ (forall rule,
        compute.GetFirewallRule (Client provider) (schema.Id d) = (Some rule, None) ->
        exists w,
          resourceFirewallRuleRead provider (startWorld d) = (w, None)
          /\ schema.GetBool (data w) resourceKeyFirewallRuleEnabled
             = compute.RuleEnabled rule
          /\ schema.Id (data w) = schema.Id d
          /\ schema.rdStrings (data w) = schema.rdStrings d
          /\ schema.rdChanged (data w) = schema.rdChanged d
          /\ (forall key : string, key <> resourceKeyFirewallRuleEnabled ->
                schema.rdBools (data w) !! key = schema.rdBools d !! key)).
Proof.
  split.
  - intros Hgone. unfold startWorld. rewrite read_run. cbv zeta. rewrite Hgone.
    eexists. split; [reflexivity|]. simpl. auto.
  - intros rule Hfound. unfold startWorld. rewrite read_run. cbv zeta.
    rewrite Hfound. eexists. split; [reflexivity|]. simpl.
    split; [|repeat split].
    + unfold schema.GetBool. simpl. now rewrite lookup_insert_eq.
    + intros key Hkey. now rewrite lookup_insert_ne.
Qed.

(** C8. Update calls [EditFirewallRule] exactly when the host reports
    the enabled field as changed, and then makes no other remote call;
    when the field is unchanged it makes no remote call at all and
    returns no error. *)
Theorem update_edits_iff_enabled_changed (provider : providerState)
    (d : schema.ResourceData) :
  ((exists id enable,
      In (CallEditFirewallRule id enable)
         (trace (fst (resourceFirewallRuleUpdate provider (startWorld d)))))
   <-> schema.HasChange d resourceKeyFirewallRuleEnabled = true)
  /\ (schema.HasChange d resourceKeyFirewallRuleEnabled = true ->
      remoteCalls (trace (fst (resourceFirewallRuleUpdate provider (startWorld d))))
      = [CallEditFirewallRule (schema.Id d)
           (schema.GetBool d resourceKeyFirewallRuleEnabled)]
      /\ snd (resourceFirewallRuleUpdate provider (startWorld d))
         = compute.EditFirewallRule (Client provider) (schema.Id d)
             (schema.GetBool d resourceKeyFirewallRuleEnabled))
  /\ (schema.HasChange d resourceKeyFirewallRuleEnabled = false ->
      remoteCalls (trace (fst (resourceFirewallRuleUpdate provider (startWorld d))))
      = []
      /\ snd (resourceFirewallRuleUpdate provider (startWorld d)) = None).
Proof.
  unfold startWorld. rewrite update_run. cbv zeta.
  destruct (schema.HasChange d resourceKeyFirewallRuleEnabled); simpl.
  - split; [|split; [auto|discriminate]].
    split; [reflexivity|]. intros _. eauto.
  - split; [|split; [discriminate|auto]].
    split; [|discriminate].
    intros (id & enable & Hin).
    repeat (destruct Hin as [Hin|Hin]; try discriminate). contradiction.
Qed.

(** C9. When the scopes resolve and [CreateFirewallRule] succeeds,
    create stores the returned ID, then calls [WaitForDeploy] for that
    ID with a timeout of 30 minutes, and returns what that call returns;
    the ID stays stored whatever the wait answers. *)
Theorem create_stores_id_then_waits (provider : providerState)
    (d : schema.ResourceData) (c : compute.FirewallRuleConfiguration)
    (ruleID : string) :
  resolveScopes d = (c, None) ->
  compute.CreateFirewallRule (Client provider) c = (ruleID, None) ->
  exists w,
    resourceFirewallRuleCreate provider (startWorld d)
    = (w, compute.WaitForDeploy (Client provider) ResourceTypeFirewallRule ruleID
            (30 * time.Minute))
    /\ trace w
       = [Lock (compute.NetworkDomainID c); CallCreateFirewallRule c;
          DataSetId ruleID;
          CallWaitForDeploy ResourceTypeFirewallRule ruleID (30 * time.Minute);
          Unlock (compute.NetworkDomainID c)]
    /\ schema.Id (data w) = ruleID.
Proof.
  intros Hscopes Hcreated. unfold startWorld. rewrite create_run, Hscopes.
  cbv zeta. rewrite Hcreated. eexists. split; [reflexivity|]. split; reflexivity.
Qed.

(** C10. When the source resolution fails, or it succeeds and the
    destination resolution fails, create returns that error and has
    done nothing: no lock taken, no remote call made, the local state,
    its ID included, as it was. *)
Theorem create_validation_error_does_nothing (provider : providerState)
    (d : schema.ResourceData) (e : error) :
  snd (configureSourceScope (propertyHelper d) (declaredConfiguration d)) = Some e
  \/ (exists c, configureSourceScope (propertyHelper d) (declaredConfiguration d)
                = (c, None)
                /\ snd (configureDestinationScope (propertyHelper d) c) = Some e) ->
  resourceFirewallRuleCreate provider (startWorld d) = (startWorld d, Some e).
Proof.
  intros Hfail. unfold startWorld. rewrite create_run. unfold resolveScopes.
  destruct Hfail as [Hsrc|(c & Hsrc & Hdst)].
  - destruct (configureSourceScope _ _) as [c1 [e1|]]; simpl in Hsrc;
      [|discriminate]. now injection Hsrc as ->.
  - rewrite Hsrc.
    destruct (configureDestinationScope _ c) as [c2 [e2|]]; simpl in Hdst;
      [|discriminate]. now injection Hdst as ->.
Qed.

End Lifecycle.

(** The end-to-end example of the specification: the source matches the
    address with port 8080, the destination the network 10.0.0.0/24 with
    no port constraint. *)
Example resolveScopes_exampleRule :
  exists c,
    resolveScopes (H := exampleExternals) exampleRule = (c, None)
    /\ compute.Source c = compute.AddressAndPort "192.168.1.1" (Some 8080)
    /\ compute.Destination c = compute.NetworkAndPort "10.0.0.0" 24 None.
Proof. eexists. vm_compute. repeat split. Qed.

Lemma create_stores_id_then_waits_witness :
  let provider :=
    {| Client := answeringClient ("rule-1", None) (None, None) None
                   (Some (RemoteError "timed out")) |} in
  exists w,
    resourceFirewallRuleCreate (H := exampleExternals) provider
      (startWorld exampleRule)
    = (w, Some (RemoteError "timed out"))
    /\ schema.Id (data w) = "rule-1".
Proof.
  intros provider.
  destruct (create_stores_id_then_waits (H := exampleExternals) provider
              exampleRule
              (fst (resolveScopes (H := exampleExternals) exampleRule)) "rule-1")
    as (w & Hrun & Htrace & Hid).
  - vm_compute. reflexivity.
  - reflexivity.
  - exists w. split; [exact Hrun|exact Hid].
Defined.

Lemma create_validation_error_does_nothing_witness :
  let d := resourceData "" [("name", "web"); ("source_port", "abc")] true [] in
  resourceFirewallRuleCreate (H := exampleExternals)
    {| Client := answeringClient ("rule-1", None) (None, None) None None |}
    (startWorld d)
  = (startWorld d, Some (NumError "Atoi" "abc" ErrSyntax)).
Proof.
  intros d. apply create_validation_error_does_nothing.
  left. vm_compute. reflexivity.
Defined.

Lemma normalizeFirewallRuleAction_synonyms_witness :
  normalizeFirewallRuleAction (H := exampleExternals) "AlLoW" = "ACCEPT"
  /\ normalizeFirewallRuleAction (H := exampleExternals) "dEnY" = "DROP"
  /\ normalizeFirewallRuleAction (H := exampleExternals) "reject" = "reject".
Proof.
  destruct (normalizeFirewallRuleAction_synonyms (H := exampleExternals))
    as (_ & Haccept & Hdrop & _ & Hother).
  split; [|split].
  - apply (Haccept "AlLoW"). reflexivity.
  - apply (Hdrop "dEnY"). reflexivity.
  - apply (Hother "reject"); reflexivity.
Defined.

Lemma read_clears_id_or_copies_enabled_witness :
  let d := resourceData "rule-1" [("networkdomain", "domain-1"); ("name", "web")]
             true [] in
  (exists w,
     resourceFirewallRuleRead
       {| Client := answeringClient ("", None) (None, None) None None |}
       (startWorld d) = (w, None)
     /\ schema.Id (data w) = "")
  /\ (exists w,
        resourceFirewallRuleRead
          {| Client :=
               answeringClient ("", None)
                 (Some {| compute.RuleID := "rule-1"; compute.RuleName := "web";
                          compute.RuleEnabled := false |}, None) None None |}
          (startWorld d) = (w, None)
        /\ schema.GetBool (data w) resourceKeyFirewallRuleEnabled = false
        /\ schema.Id (data w) = "rule-1").
Proof.
  intros d. split.
  - destruct (proj1 (read_clears_id_or_copies_enabled
        {| Client := answeringClient ("", None) (None, None) None None |} d)
        eq_refl) as (w & Hrun & Hid & _).
    exists w. split; [exact Hrun|exact Hid].
  - destruct (proj2 (read_clears_id_or_copies_enabled
        {| Client :=
             answeringClient ("", None)
               (Some {| compute.RuleID := "rule-1"; compute.RuleName := "web";
                        compute.RuleEnabled := false |}, None) None None |} d)
        _ eq_refl) as (w & Hrun & Henabled & Hid & _).
    exists w. split; [exact Hrun|]. split; [exact Henabled|exact Hid].
Defined.

Lemma update_edits_iff_enabled_changed_witness :
  let provider := {| Client := answeringClient ("", None) (None, None) None None |} in
  let changed := resourceData "rule-1" [("networkdomain", "domain-1")] false
                   ["enabled"] in
  let unchanged := resourceData "rule-1" [("networkdomain", "domain-1")] true [] in
  remoteCalls (trace (fst (resourceFirewallRuleUpdate provider (startWorld changed))))
  = [CallEditFirewallRule "rule-1" false]
  /\ remoteCalls
       (trace (fst (resourceFirewallRuleUpdate provider (startWorld unchanged))))
     = []
  /\ snd (resourceFirewallRuleUpdate provider (startWorld unchanged)) = None.
Proof.
  intros provider changed unchanged.
  destruct (update_edits_iff_enabled_changed provider changed) as (_ & Hyes & _).
  destruct (update_edits_iff_enabled_changed provider unchanged) as (_ & _ & Hno).
  split.
  - apply Hyes. vm_compute. reflexivity.
  - apply Hno. vm_compute. reflexivity.
Defined.

(** ** Splitting, and what [parseNetworkAndPrefix] accepts *)

Section SplittingFacts.
Import GoBytes Decimal.

Lemma Split_cons (s : string) (sep : ascii) :
  exists h t, strings.Split s sep = h :: t.
Proof.
  pose proof (Split_length s sep) as Hlen.
  destruct (strings.Split s sep) as [|h t]; [discriminate|eauto].
Qed.

Lemma Join_cons_byte (c sep : ascii) (h : string) (t : list string) :
  Join (String c h :: t) sep = String c (Join (h :: t) sep).
Proof. destruct t; reflexivity. Qed.

Lemma Split_no_separator (s : string) (sep : ascii) :
  Forall (fun part => countByte sep part = 0%nat) (strings.Split s sep).
Proof.
  induction s as [|c r IH]; simpl.
  - constructor; [reflexivity|constructor].
  - destruct (Ascii.eqb c sep) eqn:Hc.
    + constructor; [reflexivity|exact IH].
    + destruct (strings.Split r sep) as [|h t]; simpl.
      * constructor; [simpl; now rewrite Hc|constructor].
      * inversion IH as [|? ? Hh Ht]; subst.
        constructor; [simpl; now rewrite Hc, Hh|exact Ht].
Qed.

Lemma Split_without_separator (s : string) (sep : ascii) :
  countByte sep s = 0%nat -> strings.Split s sep = [s].
Proof.
  induction s as [|c r IH]; simpl; [reflexivity|].
  destruct (Ascii.eqb c sep); [discriminate|].
  intros Hr. now rewrite (IH Hr).
Qed.

Lemma Split_at_separator (base rest : string) (sep : ascii) :
  countByte sep base = 0%nat ->
  strings.Split (base +:+ String sep rest) sep = base :: strings.Split rest sep.
Proof.
  induction base as [|c b IH]; simpl.
  - intros _. now rewrite Ascii.eqb_refl.
  - destruct (Ascii.eqb c sep); [discriminate|].
    intros Hb. now rewrite (IH Hb).
Qed.

Lemma Join_Split (s : string) (sep : ascii) :
  Join (strings.Split s sep) sep = s.
Proof.
  induction s as [|c r IH]; simpl; [reflexivity|].
  destruct (Ascii.eqb_spec c sep) as [->|Hne].
  - destruct (Split_cons r sep) as (h & t & Hr). rewrite Hr in *.
    simpl. simpl in IH. now rewrite IH.
  - destruct (Split_cons r sep) as (h & t & Hr). rewrite Hr in *.
    rewrite Join_cons_byte. now rewrite IH.
Qed.

(** X1. Splitting loses nothing and leaves no separator behind:
    joining the components with the separator gives the string back,
    no component holds the separator, and there is one component more
    than there are separators. *)
Theorem Split_round_trip (s : string) (sep : ascii) :
  Join (strings.Split s sep) sep = s
  /\ Forall (fun part => countByte sep part = 0%nat) (strings.Split s sep)
  /\ length (strings.Split s sep) = S (countByte sep s).
Proof.
  split; [apply Join_Split|]. split; [apply Split_no_separator|apply Split_length].
Qed.

Lemma allDigits_no_slash (s : string) :
  allDigits s = true -> countByte "/" s = 0%nat.
Proof.
  induction s as [|c r IH]; simpl; [reflexivity|].
  intros Hd. apply andb_true_iff in Hd as [Hc Hr]. rewrite (IH Hr).
  destruct (Ascii.eqb_spec c "/") as [->|_]; [discriminate|reflexivity].
Qed.

Lemma isBase10Integer_no_slash (s : string) :
  isBase10Integer s = true -> countByte "/" s = 0%nat.
Proof.
  destruct s as [|c r]; [discriminate|]. unfold isBase10Integer.
  destruct (isSign c) eqn:Hs.
  - intros Hr. apply andb_true_iff in Hr as [_ Hr]. simpl.
    rewrite (allDigits_no_slash r Hr).
    unfold isSign in Hs.
    destruct (Ascii.eqb_spec c "/") as [->|_]; [discriminate|reflexivity].
  - apply allDigits_no_slash.
Qed.

(** X2. [parseNetworkAndPrefix] accepts exactly the strings made of a
    base without '/', one '/', and a base-10 integer that fits an
    [int]; it then answers that base and that integer.  Nothing else is
    looked at: the base need not be an address, the prefix may be any
    integer. *)
Theorem parseNetworkAndPrefix_accepts_iff (s base : string) (prefixSize : Z) :
  parseNetworkAndPrefix s = (base, prefixSize, true)
  <-> exists pre,
        s = base +:+ String "/" pre
        /\ countByte "/" base = 0%nat
        /\ isBase10Integer pre = true
        /\ inIntRange (integerValue pre)
        /\ prefixSize = integerValue pre.
Proof.
  split.
  - intros Hrun.
    destruct (parseNetworkAndPrefix_true s base prefixSize Hrun)
      as (_ & pre & Hsplit & _ & _).
    rewrite (parseNetworkAndPrefix_two s base pre Hsplit) in Hrun.
    destruct (strconv.Atoi pre) as [v [e|]] eqn:Hpre; [discriminate|].
    injection Hrun as <-. apply Atoi_sound in Hpre as (Hint & Hv & Hrange).
    exists pre. pose proof (Join_Split s "/") as Hjoin.
    pose proof (Split_no_separator s "/") as Hparts.
    rewrite Hsplit in Hjoin, Hparts. simpl in Hjoin.
    inversion Hparts as [|? ? Hbase _]; subst.
    repeat split; auto; try apply Hrange.
  - intros (pre & -> & Hbase & Hint & Hrange & ->).
    apply parseNetworkAndPrefix_ok; auto.
    rewrite (Split_at_separator base pre "/" Hbase).
    now rewrite (Split_without_separator pre "/" (isBase10Integer_no_slash pre Hint)).
Qed.

Lemma parseNetworkAndPrefix_accepts_iff_witness :
  parseNetworkAndPrefix "not an address/-7" = ("not an address", -7, true).
Proof.
  apply parseNetworkAndPrefix_accepts_iff. exists "-7".
  repeat split; vm_compute; discriminate.
Defined.

End SplittingFacts.

(** ** What [parseFirewallPort] accepts and how it fails *)

Section PortFacts.
Import GoBytes Decimal LetterCase.

Lemma Atoi_out_of_range (s : string) (v : Z) (e : error) :
  strconv.Atoi s = (v, Some e) ->
  isBase10Integer s = false \/ ~ inIntRange (integerValue s).
Proof.
  intros Hrun. destruct (isBase10Integer s) eqn:Hint; [right|now left].
  intros Hrange. rewrite (Atoi_complete s Hint Hrange) in Hrun. discriminate.
Qed.

Lemma Atoi_error_shape (s : string) (v : Z) (e : error) :
  strconv.Atoi s = (v, Some e) -> exists k, e = NumError "Atoi" s k.
Proof.
  unfold strconv.Atoi. destruct (strconv.ParseInt10 s) as [i [k|]];
    [|discriminate].
  intros [= _ <-]. eauto.
Qed.

(** X3. [parseFirewallPort] answers a port exactly for a base-10 integer
    that fits an [int], and the port is that integer: no bound of the
    port range is checked, a negative number or one above 65535 is a
    port like any other. *)
Theorem parseFirewallPort_port_iff (p : string) (n : Z) :
  parseFirewallPort (Some p) = (Some n, None)
  <-> isBase10Integer p = true /\ inIntRange (integerValue p)
      /\ n = integerValue p.
Proof.
  unfold parseFirewallPort. split.
  - destruct (String.eqb p "any"); [discriminate|].
    destruct (strconv.Atoi p) as [v [e|]] eqn:Hrun; [discriminate|].
    intros [= <-]. apply Atoi_sound in Hrun as (Hint & Hv & Hrange).
    subst v. auto.
  - intros (Hint & Hrange & ->).
    destruct (String.eqb_spec p "any") as [->|_]; [discriminate|].
    now rewrite Atoi_complete.
Qed.

Lemma parseFirewallPort_port_iff_witness :
  parseFirewallPort (Some "-1") = (Some (-1), None)
  /\ parseFirewallPort (Some "70000") = (Some 70000, None).
Proof.
  split; apply parseFirewallPort_port_iff; repeat split; vm_compute; discriminate.
Defined.

(** X4. When [parseFirewallPort] fails it answers no port, and its
    error is the one of [strconv.Atoi] on the port string: the string
    is neither "any" nor a base-10 integer that fits an [int], and the
    error carries that string and nothing else. *)
Theorem parseFirewallPort_error (port : option string) (r : option Z) (e : error) :
  parseFirewallPort port = (r, Some e) ->
  r = None
  /\ exists p k,
       port = Some p /\ e = NumError "Atoi" p k /\ p <> "any"
       /\ (isBase10Integer p = false \/ ~ inIntRange (integerValue p)).
Proof.
  unfold parseFirewallPort. destruct port as [p|]; [|discriminate].
  destruct (String.eqb_spec p "any") as [->|Hany]; [discriminate|].
  destruct (strconv.Atoi p) as [v [e'|]] eqn:Hrun; [|discriminate].
  intros [= <- <-]. split; [reflexivity|].
  destruct (Atoi_error_shape p v e' Hrun) as [k ->].
  exists p, k. repeat split; auto. exact (Atoi_out_of_range p v _ Hrun).
Qed.

Lemma parseFirewallPort_error_witness :
  exists p k,
    Some "99999999999999999999" = Some p
    /\ NumError "Atoi" "99999999999999999999" ErrRange = NumError "Atoi" p k
    /\ p <> "any"
    /\ (isBase10Integer p = false \/ ~ inIntRange (integerValue p)).
Proof.
  apply (parseFirewallPort_error (Some "99999999999999999999") None).
  reflexivity.
Defined.

Lemma sameLetter_a (b : ascii) :
  sameLetter "a" b = true -> isSign b = false /\ isDigit b = false.
Proof.
  unfold sameLetter. change (byte_val "a") with 97.
  rewrite !orb_true_iff, !andb_true_iff, !Z.leb_le, !Z.eqb_eq.
  intros [[Heq|Hbad]|Hup]; [| lia |].
  - apply Ascii.eqb_eq in Heq. subst b. split; reflexivity.
  - assert (Hb : b = "A"%char) by (apply byte_val_inj; change (byte_val "A") with 65; lia).
    subst b. split; reflexivity.
Qed.

(** X5. The literal "any" is matched as written: a port spelled "Any",
    "ANY" or in any other mix of cases is not a wildcard but a parse
    error. *)
Theorem parseFirewallPort_any_is_case_sensitive (p : string) :
  caseVariant "any" p = true -> p <> "any" ->
  exists k, parseFirewallPort (Some p) = (None, Some (NumError "Atoi" p k)).
Proof.
  intros Hvar Hany. unfold parseFirewallPort.
  destruct (String.eqb_spec p "any") as [->|_]; [contradiction|].
  assert (Hint : isBase10Integer p = false).
  { destruct p as [|b r]; [discriminate|]. simpl in Hvar.
    apply andb_true_iff in Hvar as [Hb _].
    destruct (sameLetter_a b Hb) as [Hsign Hdigit].
    unfold isBase10Integer. rewrite Hsign. simpl. now rewrite Hdigit. }
  destruct (Atoi_not_integer p Hint) as (v & k & ->). eauto.
Qed.

Lemma parseFirewallPort_any_is_case_sensitive_witness :
  exists k, parseFirewallPort (Some "Any") = (None, Some (NumError "Atoi" "Any" k)).
Proof.
  apply parseFirewallPort_any_is_case_sensitive; [reflexivity|discriminate].
Defined.

End PortFacts.

(** ** More on scope resolution *)

Section ScopeFacts.

Lemma scopeOf_withScope (side : Side) (s : compute.FirewallRuleScope)
    (cfg : compute.FirewallRuleConfiguration) :
  scopeOf side (withScope side s cfg) = s
  /\ scopeOf (otherSide side) (withScope side s cfg) = scopeOf (otherSide side) cfg.
Proof. destruct side; split; reflexivity. Qed.

(** A resolution that succeeds once succeeds on any configuration, with
    the same scope. *)
Lemma configureScope_any_configuration (side : Side) (ph : resourcePropertyHelper)
    (cfg c : compute.FirewallRuleConfiguration) :
  configureScope side ph cfg = (c, None) ->
  forall cfg', configureScope side ph cfg'
               = (withScope side (scopeOf side c) cfg', None).
Proof.
  intros Hrun cfg'.
  pose proof (configureScope_cases side ph cfg) as Hcfg.
  pose proof (configureScope_cases side ph cfg') as Hcfg'.
  cbv zeta in Hcfg, Hcfg'. rewrite Hrun in Hcfg. rewrite Hcfg'.
  destruct (parseFirewallPort _) as [port [e|]]; [discriminate|].
  destruct (networkUsable _ _); [|discriminate].
  injection Hcfg as ->. now rewrite (proj1 (scopeOf_withScope side _ cfg)).
Qed.

(** X6. Resolving one scope touches nothing else: the name, action,
    enabled flag, placement, network domain, IP version, protocol and
    the other scope of the configuration stay as they were; and when
    the resolution fails, the whole configuration does. *)
Theorem configureScope_frame (side : Side) (ph : resourcePropertyHelper)
    (cfg : compute.FirewallRuleConfiguration) :
  let c := fst (configureScope side ph cfg) in
  compute.Name c = compute.Name cfg
  /\ compute.Action c = compute.Action cfg
  /\ compute.Enabled c = compute.Enabled cfg
  /\ compute.Placement c = compute.Placement cfg
  /\ compute.NetworkDomainID c = compute.NetworkDomainID cfg
  /\ compute.IPVersion c = compute.IPVersion cfg
  /\ compute.Protocol c = compute.Protocol cfg
  /\ scopeOf (otherSide side) c = scopeOf (otherSide side) cfg
  /\ (snd (configureScope side ph cfg) <> None -> c = cfg).
Proof.
  pose proof (configureScope_cases side ph cfg) as Hrun. cbv zeta in Hrun.
  cbv zeta. rewrite Hrun.
  destruct (parseFirewallPort _) as [port [e|]]; [simpl; repeat split; auto|].
  destruct (networkUsable _ _); [|simpl; repeat split; auto].
  destruct side; simpl; repeat split; auto; intros Hnone; now elim Hnone.
Qed.

(** X7. The two resolutions do not depend on each other: when both
    succeed, resolving the source then the destination gives the same
    configuration as resolving the destination then the source. *)
Theorem scope_resolutions_commute (ph : resourcePropertyHelper)
    (cfg c1 c2 : compute.FirewallRuleConfiguration) :
  configureSourceScope ph cfg = (c1, None) ->
  configureDestinationScope ph cfg = (c2, None) ->
  configureDestinationScope ph c1 = configureSourceScope ph c2.
Proof.
  intros Hsrc Hdst.
  pose proof (configureScope_any_configuration SourceSide ph cfg c1 Hsrc) as Hs.
  pose proof (configureScope_any_configuration DestinationSide ph cfg c2 Hdst) as Hd.
  simpl in Hs, Hd. rewrite (Hd c1), (Hs c2).
  rewrite (Hs cfg) in Hsrc. rewrite (Hd cfg) in Hdst.
  injection Hsrc as <-. injection Hdst as <-. reflexivity.
Qed.

Lemma scope_resolutions_commute_witness :
  let ph := propertyHelper exampleRule in
  configureDestinationScope ph (fst (configureSourceScope ph emptyConfiguration))
  = configureSourceScope ph (fst (configureDestinationScope ph emptyConfiguration)).
Proof.
  intros ph. apply (scope_resolutions_commute ph emptyConfiguration);
    vm_compute; reflexivity.
Defined.

(** X8. A resolution that succeeds always configures the scope, with
    the port the port field resolved to; "any address with a port" is
    only ever chosen with a port. *)
Theorem configureScope_resolved (side : Side) (ph : resourcePropertyHelper)
    (cfg c : compute.FirewallRuleConfiguration) :
  configureScope side ph cfg = (c, None) ->
  exists port,
    parseFirewallPort (GetOptionalString ph (portKey side) false) = (port, None)
    /\ scopePort (scopeOf side c) = port
    /\ scopeOf side c <> compute.ScopeNotSet
    /\ scopeOf side c <> compute.AnyAddress None.
Proof.
  intros Hrun. pose proof (configureScope_cases side ph cfg) as Hcfg.
  cbv zeta in Hcfg. rewrite Hrun in Hcfg.
  destruct (parseFirewallPort _) as [port [e|]]; [discriminate|].
  destruct (networkUsable _ _); [|discriminate].
  injection Hcfg as ->. rewrite (proj1 (scopeOf_withScope side _ cfg)).
  exists port. split; [reflexivity|]. unfold scopeByPriority.
  destruct (GetOptionalString ph (addressKey side) false);
    [repeat split; discriminate|].
  destruct (GetOptionalString ph (networkKey side) false) as [n|].
  - destruct (parseNetworkAndPrefix n) as [[b k] ok]. repeat split; discriminate.
  - destruct port; repeat split; discriminate.
Qed.

Lemma configureScope_resolved_witness :
  exists port,
    parseFirewallPort
      (GetOptionalString (propertyHelper exampleRule) (portKey DestinationSide) false)
    = (port, None)
    /\ scopePort (scopeOf DestinationSide
                    (fst (configureScope DestinationSide (propertyHelper exampleRule)
                            emptyConfiguration))) = port
    /\ scopeOf DestinationSide
         (fst (configureScope DestinationSide (propertyHelper exampleRule)
                 emptyConfiguration)) <> compute.ScopeNotSet
    /\ scopeOf DestinationSide
         (fst (configureScope DestinationSide (propertyHelper exampleRule)
                 emptyConfiguration)) <> compute.AnyAddress None.
Proof.
  apply (configureScope_resolved DestinationSide (propertyHelper exampleRule)
           emptyConfiguration).
  vm_compute. reflexivity.
Defined.

(** X9. A port field that does not parse is reported before anything
    else is looked at: whatever the address and the network hold, the
    resolution returns the error of [strconv.Atoi], which carries the
    port string but neither the field nor the rule, and leaves the
    configuration as it was. *)
Theorem malformed_port_is_reported_first (side : Side) (ph : resourcePropertyHelper)
    (cfg : compute.FirewallRuleConfiguration) (e : error) :
  snd (parseFirewallPort (GetOptionalString ph (portKey side) false)) = Some e ->
  configureScope side ph cfg = (cfg, Some e)
  /\ exists k,
       e = NumError "Atoi" (schema.GetString (helperData ph) (portKey side)) k.
Proof.
  intros Hport. pose proof (configureScope_cases side ph cfg) as Hrun.
  cbv zeta in Hrun. rewrite Hrun. clear Hrun.
  unfold GetOptionalString in *. 
  destruct (negb (String.eqb (schema.GetString (helperData ph) (portKey side)) "")
            || false); [|discriminate].
  unfold parseFirewallPort in *.
  destruct (String.eqb _ "any"); [discriminate|].
  destruct (strconv.Atoi _) as [v [e'|]] eqn:Hatoi; [|discriminate].
  simpl in Hport. injection Hport as ->.
  split; [reflexivity|]. exact (Atoi_error_shape _ v e Hatoi).
Qed.

Lemma malformed_port_is_reported_first_witness :
  let ph := propertyHelper
      (resourceData "" [("name", "web"); ("destination_network", "10.0.0.0");
                        ("destination_port", "http")] true []) in
  configureScope DestinationSide ph emptyConfiguration
  = (emptyConfiguration, Some (NumError "Atoi" "http" ErrSyntax)).
Proof.
  intros ph.
  apply (malformed_port_is_reported_first DestinationSide ph emptyConfiguration).
  vm_compute. reflexivity.
Defined.

(** X10. A malformed network that is consulted -- no address given, the
    port in order -- is reported with a message that quotes the network
    as written and the name of the rule; the message is the same,
    word for word, for the source and for the destination. *)
Theorem malformed_network_is_reported (side : Side) (ph : resourcePropertyHelper)
    (cfg : compute.FirewallRuleConfiguration) (n : string) :
  snd (parseFirewallPort (GetOptionalString ph (portKey side) false)) = None ->
  GetOptionalString ph (addressKey side) false = None ->
  GetOptionalString ph (networkKey side) false = Some n ->
  snd (parseNetworkAndPrefix n) = false ->
  configureScope side ph cfg =
    (cfg,
     Some (Errorf ("Source network '" +:+ n +:+ "' for firewall rule '"
                   +:+ schema.GetString (helperData ph) resourceKeyFirewallRuleName
                   +:+ "' is invalid (must be 'BaseAddress/PrefixSize')"))).
Proof.
  intros Hport Ha Hn Hbad.
  destruct (parseFirewallPort (GetOptionalString ph (portKey side) false))
    as [port err] eqn:Hp.
  simpl in Hport. subst err.
  exact (malformed_network_message side ph cfg port n Hp Ha Hn Hbad).
Qed.

Lemma malformed_network_is_reported_witness :
  let ph := propertyHelper
      (resourceData "" [("name", "web"); ("source_network", "10.0.0.0/x");
                        ("source_port", "any")] true []) in
  configureScope SourceSide ph emptyConfiguration
  = (emptyConfiguration,
     Some (Errorf
       "Source network '10.0.0.0/x' for firewall rule 'web' is invalid (must be 'BaseAddress/PrefixSize')")).
Proof.
  intros ph.
  apply (malformed_network_is_reported SourceSide ph emptyConfiguration "10.0.0.0/x");
    vm_compute; reflexivity.
Defined.

End ScopeFacts.

(** ** More on the lifecycle operations *)

Section LifecycleFacts.
Context `{Externals}.

Lemma delete_run (provider : providerState) (d : schema.ResourceData)
    (t : list Event) :
  resourceFirewallRuleDelete provider {| data := d; trace := t |} =
    let id := schema.Id d in
    let domain := schema.GetString d resourceKeyFirewallRuleNetworkDomainID in
    match compute.DeleteFirewallRule (Client provider) id with
    | Some e =>
        ({| data := d;
            trace := t ++ [Lock domain; CallDeleteFirewallRule id; Unlock domain] |},
         Some e)
    | None =>
        ({| data := d;
            trace := t ++ [Lock domain; CallDeleteFirewallRule id;
                           CallWaitForDelete ResourceTypeFirewallRule id
                             resourceDeleteTimeoutFirewallRule;
                           Unlock domain] |},
         compute.WaitForDelete (Client provider) ResourceTypeFirewallRule id
           resourceDeleteTimeoutFirewallRule)
    end.
Proof.
  unfold resourceFirewallRuleDelete, callDeleteFirewallRule, callWaitForDelete,
    defer, lockDomain, unlockDomain, GetDomainLock, bind, getData, emit, ret. cbn.
  destruct (compute.DeleteFirewallRule _ _); cbn; rewrite <- !app_assoc;
    reflexivity.
Qed.

(** X11. When [DeleteFirewallRule] succeeds, delete waits for the
    removal of that rule with a timeout of 15 minutes, under the lock of
    the rule's network domain, and returns what the wait returns; the
    local state, the stored ID included, is left as it was. *)
Theorem delete_waits_for_removal (provider : providerState)
    (d : schema.ResourceData) :
  compute.DeleteFirewallRule (Client provider) (schema.Id d) = None ->
  resourceFirewallRuleDelete provider (startWorld d)
  = ({| data := d;
        trace :=
          [Lock (schema.GetString d resourceKeyFirewallRuleNetworkDomainID);
           CallDeleteFirewallRule (schema.Id d);
           CallWaitForDelete ResourceTypeFirewallRule (schema.Id d)
             (15 * time.Minute);
           Unlock (schema.GetString d resourceKeyFirewallRuleNetworkDomainID)] |},
     compute.WaitForDelete (Client provider) ResourceTypeFirewallRule (schema.Id d)
       (15 * time.Minute)).
Proof.
  intros Hdeleted. unfold startWorld. rewrite delete_run. cbv zeta.
  now rewrite Hdeleted.
Qed.

(** X12. When [DeleteFirewallRule] fails, delete returns that error
    without waiting for anything, and releases the lock. *)
Theorem delete_failure_is_returned (provider : providerState)
    (d : schema.ResourceData) (e : error) :
  compute.DeleteFirewallRule (Client provider) (schema.Id d) = Some e ->
  resourceFirewallRuleDelete provider (startWorld d)
  = ({| data := d;
        trace :=
          [Lock (schema.GetString d resourceKeyFirewallRuleNetworkDomainID);
           CallDeleteFirewallRule (schema.Id d);
           Unlock (schema.GetString d resourceKeyFirewallRuleNetworkDomainID)] |},
     Some e).
Proof.
  intros Hfailed. unfold startWorld. rewrite delete_run. cbv zeta.
  now rewrite Hfailed.
Qed.

(** X13. When the scopes resolve and [CreateFirewallRule] fails, create
    returns that error, stores no ID -- whatever ID came with the
    error -- does not wait for a deployment, and releases the lock. *)
Theorem create_remote_failure (provider : providerState)
    (d : schema.ResourceData) (c : compute.FirewallRuleConfiguration)
    (ruleID : string) (e : error) :
  resolveScopes d = (c, None) ->
  compute.CreateFirewallRule (Client provider) c = (ruleID, Some e) ->
  resourceFirewallRuleCreate provider (startWorld d)
  = ({| data := d;
        trace := [Lock (compute.NetworkDomainID c); CallCreateFirewallRule c;
                  Unlock (compute.NetworkDomainID c)] |},
     Some e).
Proof.
  intros Hscopes Hfailed. unfold startWorld.
  rewrite create_run, Hscopes. cbv zeta. now rewrite Hfailed.
Qed.

(** What the two resolutions of create make of the declared
    configuration. *)
Lemma resolveScopes_result (d : schema.ResourceData)
    (c : compute.FirewallRuleConfiguration) :
  resolveScopes d = (c, None) ->
  c = compute.withDestination
        (scopeByPriority
           (GetOptionalString (propertyHelper d) (addressKey DestinationSide) false)
           (GetOptionalString (propertyHelper d) (networkKey DestinationSide) false)
           (fst (parseFirewallPort
                   (GetOptionalString (propertyHelper d) (portKey DestinationSide)
                      false))))
        (compute.withSource
           (scopeByPriority
              (GetOptionalString (propertyHelper d) (addressKey SourceSide) false)
              (GetOptionalString (propertyHelper d) (networkKey SourceSide) false)
              (fst (parseFirewallPort
                      (GetOptionalString (propertyHelper d) (portKey SourceSide)
                         false))))
           (declaredConfiguration d)).
Proof.
  unfold resolveScopes.
  pose proof (configureScope_cases SourceSide (propertyHelper d)
                (declaredConfiguration d)) as Hs.
  cbv zeta in Hs. simpl configureScope in Hs. rewrite Hs. clear Hs.
  destruct (parseFirewallPort
              (GetOptionalString (propertyHelper d) (portKey SourceSide) false))
    as [sport [e|]]; [discriminate|].
  destruct (networkUsable _ _); [|discriminate].
  simpl withScope.
  match goal with
  | |- configureDestinationScope ?ph ?c1 = _ -> _ =>
      pose proof (configureScope_cases DestinationSide ph c1) as Hd
  end.
  cbv zeta in Hd. simpl configureScope in Hd. rewrite Hd. clear Hd.
  destruct (parseFirewallPort
              (GetOptionalString (propertyHelper d) (portKey DestinationSide) false))
    as [dport [e|]]; [discriminate|].
  destruct (networkUsable _ _); [|discriminate].
  intros [= <-]. reflexivity.
Qed.

Lemma create_call_resolved (provider : providerState) (d : schema.ResourceData)
    (c : compute.FirewallRuleConfiguration) :
  In (CallCreateFirewallRule c)
     (trace (fst (resourceFirewallRuleCreate provider (startWorld d)))) ->
  resolveScopes d = (c, None).
Proof.
  unfold startWorld. rewrite create_run.
  destruct (resolveScopes d) as [c' [e|]]; [intros []|]. cbv zeta.
  destruct (compute.CreateFirewallRule _ _) as [ruleID [e|]]; simpl;
    intros Hin; repeat (destruct Hin as [Hin|Hin]; try discriminate);
    try contradiction; now injection Hin as <-.
Qed.

(** X14. The configuration create sends to [CreateFirewallRule] carries
    the declared name, network domain and enabled flag as they are, the
    placement, IP version and protocol in upper case, and the relative
    rule name when one is given. *)
Theorem create_sends_declared_fields (provider : providerState)
    (d : schema.ResourceData) (c : compute.FirewallRuleConfiguration) :
  In (CallCreateFirewallRule c)
     (trace (fst (resourceFirewallRuleCreate provider (startWorld d)))) ->
  compute.Name c = schema.GetString d resourceKeyFirewallRuleName
  /\ compute.NetworkDomainID c
     = schema.GetString d resourceKeyFirewallRuleNetworkDomainID
  /\ compute.Enabled c = schema.GetBool d resourceKeyFirewallRuleEnabled
  /\ compute.Position (compute.Placement c)
     = strings.ToUpper (schema.GetString d resourceKeyFirewallRulePlacement)
  /\ compute.RelativeToRuleName (compute.Placement c)
     = GetOptionalString (propertyHelper d)
         resourceKeyFirewallRulePlacementRelativeToRuleName false
  /\ compute.IPVersion c
     = strings.ToUpper (schema.GetString d resourceKeyFirewallRuleIPVersion)
  /\ compute.Protocol c
     = strings.ToUpper (schema.GetString d resourceKeyFirewallRuleProtocol).
Proof.
  intros Hin. apply create_call_resolved in Hin.
  rewrite (resolveScopes_result d c Hin). simpl. repeat split.
Qed.

(** X15. In the configuration create sends, the source scope is the one
    the priority order gives for the source fields and the destination
    scope the one it gives for the destination fields: each side is
    resolved from its own three fields only. *)
Theorem create_sends_both_scopes (provider : providerState)
    (d : schema.ResourceData) (c : compute.FirewallRuleConfiguration) :
  In (CallCreateFirewallRule c)
     (trace (fst (resourceFirewallRuleCreate provider (startWorld d)))) ->
  forall side,
    scopeOf side c
    = scopeByPriority
        (GetOptionalString (propertyHelper d) (addressKey side) false)
        (GetOptionalString (propertyHelper d) (networkKey side) false)
        (fst (parseFirewallPort
                (GetOptionalString (propertyHelper d) (portKey side) false))).
Proof.
  intros Hin side. apply create_call_resolved in Hin.
  rewrite (resolveScopes_result d c Hin). destruct side; reflexivity.
Qed.

End LifecycleFacts.

Section LockAndState.
Context `{Externals}.

(** X16. Every operation that takes the domain lock releases it, on
    every path: the trace of create is empty or bracketed by the lock
    and the unlock of the declared network domain, that of update and
    of delete is always so bracketed, and read never touches a lock. *)
Theorem operations_release_the_lock (provider : providerState)
    (d : schema.ResourceData) :
  let domain := schema.GetString d resourceKeyFirewallRuleNetworkDomainID in
  (trace (fst (resourceFirewallRuleCreate provider (startWorld d))) = []
   \/ lockBracketed domain
        (trace (fst (resourceFirewallRuleCreate provider (startWorld d)))))
  /\ lockBracketed domain
       (trace (fst (resourceFirewallRuleUpdate provider (startWorld d))))
  /\ lockBracketed domain
       (trace (fst (resourceFirewallRuleDelete provider (startWorld d))))
  /\ forallb (fun e => negb (isLockEvent e))
       (trace (fst (resourceFirewallRuleRead provider (startWorld d)))) = true.
Proof.
  cbv zeta. unfold startWorld. split; [|split; [|split]].
  - rewrite create_run.
    destruct (resolveScopes d) as [c [e|]] eqn:Hscopes; [now left|right].
    assert (Hdom : compute.NetworkDomainID c
                   = schema.GetString d resourceKeyFirewallRuleNetworkDomainID)
      by (rewrite (resolveScopes_result d c Hscopes); reflexivity).
    cbv zeta. rewrite Hdom.
    destruct (compute.CreateFirewallRule _ _) as [ruleID [e|]]; simpl.
    + exists [CallCreateFirewallRule c]. split; reflexivity.
    + exists [CallCreateFirewallRule c; DataSetId ruleID;
              CallWaitForDeploy ResourceTypeFirewallRule ruleID
                resourceCreateTimeoutFirewallRule].
      split; reflexivity.
  - rewrite update_run. cbv zeta.
    destruct (schema.HasChange d resourceKeyFirewallRuleEnabled); simpl.
    + eexists [_]. split; reflexivity.
    + exists []. split; reflexivity.
  - rewrite delete_run. cbv zeta.
    destruct (compute.DeleteFirewallRule _ _); simpl.
    + eexists [_]. split; reflexivity.
    + eexists [_; _]. split; reflexivity.
  - rewrite read_run. cbv zeta.
    destruct (compute.GetFirewallRule _ _) as [[rule|] [e|]]; reflexivity.
Qed.

(** X17. Update and delete never write to the local state: whatever
    the remote API answers, the resource data is afterwards what it was
    before; in particular delete does not clear the stored ID. *)
Theorem update_and_delete_keep_local_state (provider : providerState)
    (d : schema.ResourceData) :
  data (fst (resourceFirewallRuleUpdate provider (startWorld d))) = d
  /\ data (fst (resourceFirewallRuleDelete provider (startWorld d))) = d.
Proof.
  unfold startWorld. rewrite update_run, delete_run. cbv zeta. split.
  - destruct (schema.HasChange d resourceKeyFirewallRuleEnabled); reflexivity.
  - destruct (compute.DeleteFirewallRule _ _); reflexivity.
Qed.

(** X18. When [GetFirewallRule] answers an error, read returns it and
    leaves the local state alone, also when a rule came with the
    error. *)
Theorem read_error_is_returned (provider : providerState)
    (d : schema.ResourceData) (rule : option compute.FirewallRule) (e : error) :
  compute.GetFirewallRule (Client provider) (schema.Id d) = (rule, Some e) ->
  resourceFirewallRuleRead provider (startWorld d)
  = ({| data := d; trace := [CallGetFirewallRule (schema.Id d)] |}, Some e).
Proof.
  intros Hfailed. unfold startWorld. rewrite read_run. cbv zeta.
  rewrite Hfailed. destruct rule; reflexivity.
Qed.

Lemma SetBool_SetBool (key : string) (v : bool) (d : schema.ResourceData) :
  schema.SetBool key v (schema.SetBool key v d) = schema.SetBool key v d.
Proof.
  unfold schema.SetBool. simpl. f_equal. apply insert_insert_eq.
Qed.

(** X19. Reading a rule that exists twice in a row leaves the local
    state as the first read left it. *)
Theorem read_twice (provider : providerState) (d : schema.ResourceData)
    (rule : compute.FirewallRule) :
  compute.GetFirewallRule (Client provider) (schema.Id d) = (Some rule, None) ->
  let once := fst (resourceFirewallRuleRead provider (startWorld d)) in
  let twice := fst (resourceFirewallRuleRead provider once) in
  data twice = data once
  /\ snd (resourceFirewallRuleRead provider once) = None.
Proof.
  intros Hfound. cbv zeta. unfold startWorld. rewrite read_run. cbv zeta.
  rewrite Hfound. cbn [fst]. rewrite read_run. cbv zeta.
  change (schema.Id (schema.SetBool _ _ d)) with (schema.Id d).
  rewrite Hfound. cbn [fst snd data]. split; [|reflexivity].
  apply SetBool_SetBool.
Qed.

(** X20. The ID create stores is the one the later operations use: after
    a create whose remote call succeeded, read looks up the rule with
    the returned ID, update edits it and delete deletes it, update and
    delete under the lock of the same network domain. *)
Theorem operations_use_the_created_id (provider : providerState)
    (d : schema.ResourceData) (c : compute.FirewallRuleConfiguration)
    (ruleID : string) :
  resolveScopes d = (c, None) ->
  compute.CreateFirewallRule (Client provider) c = (ruleID, None) ->
  let created :=
    startWorld (data (fst (resourceFirewallRuleCreate provider (startWorld d)))) in
  hd_error (trace (fst (resourceFirewallRuleRead provider created)))
  = Some (CallGetFirewallRule ruleID)
  /\ (schema.HasChange d resourceKeyFirewallRuleEnabled = true ->
      trace (fst (resourceFirewallRuleUpdate provider created))
      = [Lock (compute.NetworkDomainID c);
         CallEditFirewallRule ruleID
           (schema.GetBool d resourceKeyFirewallRuleEnabled);
         Unlock (compute.NetworkDomainID c)])
  /\ remoteCalls (trace (fst (resourceFirewallRuleDelete provider created)))
     = CallDeleteFirewallRule ruleID
       :: match compute.DeleteFirewallRule (Client provider) ruleID with
          | Some _ => []
          | None => [CallWaitForDelete ResourceTypeFirewallRule ruleID
                       resourceDeleteTimeoutFirewallRule]
          end.
Proof.
  intros Hscopes Hcreated. cbv zeta. unfold startWorld.
  assert (Hdom : compute.NetworkDomainID c
                 = schema.GetString d resourceKeyFirewallRuleNetworkDomainID)
    by (rewrite (resolveScopes_result d c Hscopes); reflexivity).
  rewrite create_run, Hscopes. cbv zeta. rewrite Hcreated. cbn [fst data].
  rewrite read_run, update_run, delete_run. cbv zeta. rewrite Hdom.
  change (schema.Id (schema.SetId ruleID d)) with ruleID.
  split; [|split].
  - destruct (compute.GetFirewallRule _ _) as [[rule|] [e|]]; reflexivity.
  - intros Hchanged.
    change (schema.HasChange (schema.SetId ruleID d) resourceKeyFirewallRuleEnabled)
      with (schema.HasChange d resourceKeyFirewallRuleEnabled).
    rewrite Hchanged. reflexivity.
  - destruct (compute.DeleteFirewallRule _ _); reflexivity.
Qed.

End LockAndState.

(** ** Letter case in what create sends, and the schema *)

Section UpperCase.
Import GoBytes LetterCase.

Lemma isLowerByte_spec (c : ascii) :
  isLowerByte c = true <-> 97 <= byte_val c <= 122.
Proof.
  unfold isLowerByte. change (byte_val "a") with 97. change (byte_val "z") with 122.
  rewrite andb_true_iff, !Z.leb_le. tauto.
Qed.

Lemma upperByte_lower (c : ascii) :
  97 <= byte_val c <= 122 -> byte_val (upperByte c) = byte_val c - 32.
Proof.
  intros Hc. unfold upperByte. rewrite (proj2 (isLowerByte_spec c) Hc).
  change (byte_val "a" - byte_val "A") with 32. apply byte_val_of. lia.
Qed.

Lemma upperByte_facts (c : ascii) :
  isLowerByte (upperByte c) = false
  /\ lowerByte (upperByte c) = lowerByte c
  /\ (byte_val (upperByte c) <? RuneSelf) = (byte_val c <? RuneSelf).
Proof.
  destruct (isLowerByte c) eqn:Hc.
  - apply isLowerByte_spec in Hc. pose proof (upperByte_lower c Hc) as Hu.
    assert (Hup : 65 <= byte_val (upperByte c) <= 90) by lia.
    split; [|split].
    + destruct (isLowerByte (upperByte c)) eqn:Hl; [|reflexivity].
      apply isLowerByte_spec in Hl. lia.
    + apply byte_val_inj. rewrite (lowerByte_upper _ Hup).
      rewrite lowerByte_not_upper; [lia|].
      destruct (isUpperByte c) eqn:Hcu; [|reflexivity].
      apply isUpperByte_spec in Hcu. lia.
    + unfold RuneSelf. rewrite Hu.
      destruct (Z.ltb_spec (byte_val c - 32) 128), (Z.ltb_spec (byte_val c) 128);
        auto; lia.
  - unfold upperByte. rewrite Hc. auto.
Qed.

Lemma mapBytes_upper_facts (s : string) :
  noLowerByte (mapBytes upperByte s) = true
  /\ mapBytes lowerByte (mapBytes upperByte s) = mapBytes lowerByte s
  /\ isASCII (mapBytes upperByte s) = isASCII s.
Proof.
  induction s as [|c r (IH1 & IH2 & IH3)]; simpl; [auto|].
  destruct (upperByte_facts c) as (H1 & H2 & H3).
  rewrite H1, H2, H3, IH1, IH2, IH3. auto.
Qed.

Context `{Externals}.

(** Upper-casing an ASCII string changes the case of its letters and
    nothing else. *)
Lemma ToUpper_ascii (s : string) :
  isASCII s = true ->
  noLowerByte (strings.ToUpper s) = true
  /\ strings.ToLower (strings.ToUpper s) = strings.ToLower s.
Proof.
  intros Hs. unfold strings.ToUpper, strings.ToLower. rewrite Hs.
  destruct (mapBytes_upper_facts s) as (H1 & H2 & H3).
  rewrite H3, Hs. auto.
Qed.

(** X21. For ASCII values of the placement, the IP version and the
    protocol, what create sends holds no lower-case letter and differs
    from what was declared in the case of letters only. *)
Theorem create_sends_upper_case (provider : providerState)
    (d : schema.ResourceData) (c : compute.FirewallRuleConfiguration) :
  In (CallCreateFirewallRule c)
     (trace (fst (resourceFirewallRuleCreate provider (startWorld d)))) ->
  isASCII (schema.GetString d resourceKeyFirewallRulePlacement) = true ->
  isASCII (schema.GetString d resourceKeyFirewallRuleIPVersion) = true ->
  isASCII (schema.GetString d resourceKeyFirewallRuleProtocol) = true ->
  (noLowerByte (compute.Position (compute.Placement c)) = true
   /\ strings.ToLower (compute.Position (compute.Placement c))
      = strings.ToLower (schema.GetString d resourceKeyFirewallRulePlacement))
  /\ (noLowerByte (compute.IPVersion c) = true
      /\ strings.ToLower (compute.IPVersion c)
         = strings.ToLower (schema.GetString d resourceKeyFirewallRuleIPVersion))
  /\ (noLowerByte (compute.Protocol c) = true
      /\ strings.ToLower (compute.Protocol c)
         = strings.ToLower (schema.GetString d resourceKeyFirewallRuleProtocol)).
Proof.
  intros Hin Hplacement Hversion Hprotocol. apply create_call_resolved in Hin.
  rewrite (resolveScopes_result d c Hin). simpl.
  repeat split; now apply ToUpper_ascii.
Qed.

Lemma normalize_outcomes (action : string) :
  normalizeFirewallRuleAction action = FirewallRuleActionAccept
  \/ normalizeFirewallRuleAction action = FirewallRuleActionDrop
  \/ normalizeFirewallRuleAction action = action.
Proof.
  unfold normalizeFirewallRuleAction.
  repeat (destruct (String.eqb _ _); [auto|]). auto.
Qed.

(** X22. Normalizing an action twice is normalizing it once, provided
    the two constants of the client library are themselves left alone
    by the normalization. *)
Theorem normalizeFirewallRuleAction_idempotent (action : string) :
  normalizeFirewallRuleAction FirewallRuleActionAccept = FirewallRuleActionAccept ->
  normalizeFirewallRuleAction FirewallRuleActionDrop = FirewallRuleActionDrop ->
  normalizeFirewallRuleAction (normalizeFirewallRuleAction action)
  = normalizeFirewallRuleAction action.
Proof.
  intros Haccept Hdrop.
  destruct (normalize_outcomes action) as [Hr|[Hr|Hr]]; rewrite Hr; auto.
Qed.

End UpperCase.

Section SchemaFacts.
Context `{Externals}.
Import schemaDecl.

Lemma SchemaMap_entry (key : string) (sch : Schema) :
  SchemaMap resourceFirewallRule !! key = Some sch ->
  (key, sch) ∈ SchemaEntries resourceFirewallRule.
Proof. unfold SchemaMap. apply elem_of_list_to_map_2. Qed.

(** X23. Every declared field but "enabled" forces a new resource when
    it changes: "enabled", the one field update looks at, is the only
    one that can change in place. *)
Theorem schema_only_enabled_updates_in_place (key : string) (sch : Schema) :
  SchemaMap resourceFirewallRule !! key = Some sch ->
  ForceNew sch = negb (String.eqb key resourceKeyFirewallRuleEnabled).
Proof.
  intros Hkey. apply SchemaMap_entry in Hkey. simpl in Hkey.
  repeat (apply elem_of_cons in Hkey as [Hkey|Hkey];
          [injection Hkey as -> ->; reflexivity|]).
  inversion Hkey.
Qed.

(** X24. The declared conflicts are mutual: when a field names another
    as conflicting, the other is a declared field, a different one, and
    names the first. *)
Theorem schema_conflicts_are_mutual (key other : string) (sch : Schema) :
  SchemaMap resourceFirewallRule !! key = Some sch ->
  other ∈ ConflictsWith sch ->
  key <> other
  /\ exists sch',
       SchemaMap resourceFirewallRule !! other = Some sch'
       /\ key ∈ ConflictsWith sch'.
Proof.
  intros Hkey Hother. apply SchemaMap_entry in Hkey. simpl in Hkey.
  repeat (apply elem_of_cons in Hkey as [Hkey|Hkey];
          [injection Hkey as -> ->; simpl in Hother;
           first [ now inversion Hother
                 | apply list_elem_of_singleton in Hother as ->;
                   split; [discriminate|];
                   eexists; split; [vm_compute; reflexivity|];
                   simpl; apply list_elem_of_singleton; reflexivity ] |]).
  inversion Hkey.
Qed.

End SchemaFacts.

(** ** Port ranges *)

Section PortRangeFacts.
Import GoBytes GoTrim.

Lemma trimLeft_first (s : string) :
  match firstByte (trimLeft s) with
  | Some c => asciiSpace c = false
  | None => trimLeft s = EmptyString
  end.
Proof.
  induction s as [|c r IH]; simpl; [reflexivity|].
  destruct (asciiSpace c) eqn:Hc; [exact IH|exact Hc].
Qed.

Lemma trimRight_first (c : ascii) (r : string) :
  asciiSpace c = false -> firstByte (trimRight (String c r)) = Some c.
Proof.
  intros Hc. simpl. destruct (trimRight r); [now rewrite Hc|reflexivity].
Qed.

Lemma trimRight_last (s : string) :
  match lastByte (trimRight s) with
  | Some c => asciiSpace c = false
  | None => trimRight s = EmptyString
  end.
Proof.
  induction s as [|c r IH]; simpl; [reflexivity|].
  destruct (trimRight r) as [|c' r'] eqn:Hr.
  - destruct (asciiSpace c) eqn:Hc; simpl; [reflexivity|exact Hc].
  - change (lastByte (String c (String c' r'))) with (lastByte (String c' r')).
    destruct (lastByte (String c' r')); [exact IH|discriminate IH].
Qed.

(** Trimming an ASCII string leaves no white space at either end. *)
Lemma trim_trimmed (s : string) : trimmed (trimRight (trimLeft s)) = true.
Proof.
  unfold trimmed. pose proof (trimLeft_first s) as Hfirst.
  pose proof (trimRight_last (trimLeft s)) as Hlast.
  destruct (trimLeft s) as [|c r]; [reflexivity|]. simpl in Hfirst.
  rewrite (trimRight_first c r Hfirst).
  destruct (lastByte (trimRight (String c r))); [|reflexivity].
  now rewrite Hfirst, Hlast.
Qed.

Lemma Split_isASCII (s : string) (sep : ascii) :
  isASCII s = true ->
  Forall (fun part => isASCII part = true) (strings.Split s sep).
Proof.
  induction s as [|c r IH]; simpl; intros Hs.
  - constructor; [reflexivity|constructor].
  - apply andb_true_iff in Hs as [Hc Hr]. specialize (IH Hr).
    destruct (Ascii.eqb c sep).
    + constructor; [reflexivity|exact IH].
    + destruct (strings.Split r sep) as [|h t]; simpl.
      * constructor; [simpl; now rewrite Hc|constructor].
      * inversion IH as [|? ? Hh Ht]; subst.
        constructor; [simpl; now rewrite Hc, Hh|exact Ht].
Qed.

Context `{UnicodeSpace}.

(** X25. A port range without '-' is a single port: [parsePortRange]
    answers the trimmed string as the begin port and no end port. *)
Theorem parsePortRange_single (s : string) :
  countByte "-" s = 0%nat ->
  parsePortRange (Some s) = Some (TrimSpace s, None).
Proof.
  intros Hs. unfold parsePortRange.
  now rewrite (Split_without_separator s "-" Hs).
Qed.

(** X26. A port range "begin-end" yields the two ports, each trimmed;
    whatever follows a second '-' is dropped without complaint. *)
Theorem parsePortRange_range (b e : string) :
  countByte "-" b = 0%nat -> countByte "-" e = 0%nat ->
  parsePortRange (Some (b +:+ String "-" e))
  = Some (TrimSpace b, Some (TrimSpace e))
  /\ forall rest,
       parsePortRange (Some (b +:+ String "-" (e +:+ String "-" rest)))
       = Some (TrimSpace b, Some (TrimSpace e)).
Proof.
  intros Hb He. unfold parsePortRange. split.
  - rewrite (Split_at_separator b e "-" Hb).
    now rewrite (Split_without_separator e "-" He).
  - intros rest. rewrite (Split_at_separator b _ "-" Hb).
    rewrite (Split_at_separator e rest "-" He).
    destruct (Split_cons rest "-") as (h & t & ->). reflexivity.
Qed.

(** X27. For an ASCII port range, neither port [parsePortRange] answers
    begins or ends with white space. *)
Theorem parsePortRange_trimmed (s beginPort : string) (endPort : option string) :
  isASCII s = true ->
  parsePortRange (Some s) = Some (beginPort, endPort) ->
  trimmed beginPort = true
  /\ forall e, endPort = Some e -> trimmed e = true.
Proof.
  intros Hs. unfold parsePortRange.
  pose proof (Split_isASCII s "-" Hs) as Hparts.
  destruct (Split_cons s "-") as (h & t & Hsplit). rewrite Hsplit in *.
  inversion Hparts as [|? ? Hh Ht]; subst.
  assert (Hbegin : trimmed (TrimSpace h) = true)
    by (unfold TrimSpace; rewrite Hh; apply trim_trimmed).
  destruct t as [|e t]; simpl.
  - intros [= <- <-]. split; [exact Hbegin|discriminate].
  - intros [= <- <-]. split; [exact Hbegin|].
    intros e' [= <-]. inversion Ht as [|? ? He _]; subst.
    unfold TrimSpace. rewrite He. apply trim_trimmed.
Qed.

End PortRangeFacts.

(** ** The properties above at work on the example rule *)

Lemma delete_waits_for_removal_witness :
  snd (resourceFirewallRuleDelete (H := exampleExternals) exampleProvider
         (startWorld createdRule)) = None
  /\ data (fst (resourceFirewallRuleDelete (H := exampleExternals) exampleProvider
                  (startWorld createdRule))) = createdRule.
Proof.
  rewrite (delete_waits_for_removal (H := exampleExternals) exampleProvider
             createdRule eq_refl).
  split; reflexivity.
Defined.

Lemma delete_failure_is_returned_witness :
  snd (resourceFirewallRuleDelete (H := exampleExternals) failingProvider
         (startWorld createdRule)) = Some (RemoteError "refused").
Proof.
  rewrite (delete_failure_is_returned (H := exampleExternals) failingProvider
             createdRule (RemoteError "refused") eq_refl).
  reflexivity.
Defined.

Lemma create_remote_failure_witness :
  snd (resourceFirewallRuleCreate (H := exampleExternals) failingProvider
         (startWorld exampleRule)) = Some (RemoteError "refused")
  /\ data (fst (resourceFirewallRuleCreate (H := exampleExternals) failingProvider
                  (startWorld exampleRule))) = exampleRule.
Proof.
  rewrite (create_remote_failure (H := exampleExternals) failingProvider exampleRule
             (fst (resolveScopes (H := exampleExternals) exampleRule)) ""
             (RemoteError "refused"));
    [split; reflexivity | vm_compute; reflexivity | reflexivity].
Defined.

Lemma exampleRule_is_sent :
  In (CallCreateFirewallRule (fst (resolveScopes (H := exampleExternals) exampleRule)))
     (trace (fst (resourceFirewallRuleCreate (H := exampleExternals) exampleProvider
                    (startWorld exampleRule)))).
Proof. vm_compute. right. left. reflexivity. Qed.

Lemma create_sends_declared_fields_witness :
  compute.Name (fst (resolveScopes (H := exampleExternals) exampleRule))
  = schema.GetString exampleRule resourceKeyFirewallRuleName
  /\ compute.NetworkDomainID (fst (resolveScopes (H := exampleExternals) exampleRule))
     = schema.GetString exampleRule resourceKeyFirewallRuleNetworkDomainID.
Proof.
  destruct (create_sends_declared_fields (H := exampleExternals) exampleProvider
              exampleRule _ exampleRule_is_sent) as (Hname & Hdomain & _).
  split; [exact Hname|exact Hdomain].
Defined.

Lemma create_sends_both_scopes_witness :
  scopeOf DestinationSide (fst (resolveScopes (H := exampleExternals) exampleRule))
  = scopeByPriority
      (GetOptionalString (propertyHelper exampleRule) (addressKey DestinationSide)
         false)
      (GetOptionalString (propertyHelper exampleRule) (networkKey DestinationSide)
         false)
      (fst (parseFirewallPort
              (GetOptionalString (propertyHelper exampleRule)
                 (portKey DestinationSide) false))).
Proof.
  exact (create_sends_both_scopes (H := exampleExternals) exampleProvider
           exampleRule _ exampleRule_is_sent DestinationSide).
Defined.

Lemma create_sends_upper_case_witness :
  noLowerByte
    (compute.Protocol (fst (resolveScopes (H := exampleExternals) exampleRule)))
  = true.
Proof.
  destruct (create_sends_upper_case (H := exampleExternals) exampleProvider
              exampleRule _ exampleRule_is_sent)
    as (_ & _ & Hprotocol & _); [vm_compute; reflexivity ..|].
  exact Hprotocol.
Defined.

Lemma read_error_is_returned_witness :
  resourceFirewallRuleRead failingProvider (startWorld createdRule)
  = ({| data := createdRule; trace := [CallGetFirewallRule (schema.Id createdRule)] |},
     Some (RemoteError "refused")).
Proof.
  exact (read_error_is_returned failingProvider createdRule None
           (RemoteError "refused") eq_refl).
Defined.

Lemma read_twice_witness :
  data (fst (resourceFirewallRuleRead exampleProvider
               (fst (resourceFirewallRuleRead exampleProvider
                       (startWorld createdRule)))))
  = data (fst (resourceFirewallRuleRead exampleProvider (startWorld createdRule))).
Proof.
  exact (proj1 (read_twice exampleProvider createdRule
                  {| compute.RuleID := "rule-1"; compute.RuleName := "web";
                     compute.RuleEnabled := false |} eq_refl)).
Defined.

Lemma operations_use_the_created_id_witness :
  hd_error
    (trace (fst (resourceFirewallRuleRead exampleProvider
                   (startWorld
                      (data (fst (resourceFirewallRuleCreate (H := exampleExternals)
                                    exampleProvider (startWorld exampleRule))))))))
  = Some (CallGetFirewallRule "rule-1").
Proof.
  refine (proj1 (operations_use_the_created_id (H := exampleExternals)
                   exampleProvider exampleRule
                   (fst (resolveScopes (H := exampleExternals) exampleRule))
                   "rule-1" _ _)).
  - vm_compute. reflexivity.
  - reflexivity.
Defined.

Lemma normalizeFirewallRuleAction_idempotent_witness :
  normalizeFirewallRuleAction (H := exampleExternals)
    (normalizeFirewallRuleAction (H := exampleExternals) "Allow")
  = normalizeFirewallRuleAction (H := exampleExternals) "Allow".
Proof.
  apply (normalizeFirewallRuleAction_idempotent (H := exampleExternals));
    reflexivity.
Defined.

Lemma schema_only_enabled_updates_in_place_witness :
  schemaDecl.ForceNew enabledDeclaration = false
  /\ schemaDecl.ForceNew sourceAddressDeclaration = true.
Proof.
  split.
  - apply (schema_only_enabled_updates_in_place (H := exampleExternals)
             resourceKeyFirewallRuleEnabled enabledDeclaration).
    vm_compute. reflexivity.
  - apply (schema_only_enabled_updates_in_place (H := exampleExternals)
             resourceKeyFirewallRuleSourceAddress sourceAddressDeclaration).
    vm_compute. reflexivity.
Defined.

Lemma schema_conflicts_are_mutual_witness :
  resourceKeyFirewallRuleSourceAddress <> resourceKeyFirewallRuleSourceNetwork
  /\ exists sch',
       schemaDecl.SchemaMap (resourceFirewallRule (H := exampleExternals))
         !! resourceKeyFirewallRuleSourceNetwork = Some sch'
       /\ resourceKeyFirewallRuleSourceAddress ∈ schemaDecl.ConflictsWith sch'.
Proof.
  apply (schema_conflicts_are_mutual (H := exampleExternals)
           resourceKeyFirewallRuleSourceAddress resourceKeyFirewallRuleSourceNetwork
           sourceAddressDeclaration).
  - vm_compute. reflexivity.
  - apply list_elem_of_singleton. reflexivity.
Defined.

Lemma parsePortRange_single_witness :
  parsePortRange (H := exampleUnicodeSpace) (Some " 8080 ")
  = Some (GoTrim.TrimSpace (H := exampleUnicodeSpace) " 8080 ", None).
Proof.
  apply (parsePortRange_single (H := exampleUnicodeSpace)). reflexivity.
Defined.

Lemma parsePortRange_range_witness :
  parsePortRange (H := exampleUnicodeSpace) (Some "8000 - 8080-9000")
  = Some (GoTrim.TrimSpace (H := exampleUnicodeSpace) "8000 ",
          Some (GoTrim.TrimSpace (H := exampleUnicodeSpace) " 8080")).
Proof.
  apply (proj2 (parsePortRange_range (H := exampleUnicodeSpace) "8000 " " 8080"
                  eq_refl eq_refl) "9000").
Defined.

Lemma parsePortRange_trimmed_witness :
  trimmed "8000" = true /\ forall e, Some "8080" = Some e -> trimmed e = true.
Proof.
  apply (parsePortRange_trimmed (H := exampleUnicodeSpace) "8000 - 8080"
           "8000" (Some "8080")); reflexivity.
Defined.
